(** * Verification of the Twin SDK reference template

    Shallow embedding of

    - [src/lib/twin-sdk.ts]: the lazily constructed, cached platform client
      ([getPlatformSDK], [isPlatformSDKConfigured]);
    - [src/components/TwinSDKExample.tsx]: the chat controller
      ([initializeSession], [sendMessage] and the four [avatar.*] event
      handlers registered on the session manager).

    JavaScript strings are sequences of UTF-16 code units, optional values are
    [option], React state is a record threaded through the code, and every
    call into an external collaborator (toasts, console, [fetch], the session
    manager) is recorded in a chronological effect log.  An [async] function is
    cut at each [await] into the synchronous segments that the event loop
    runs; the segment after an [await] takes the outcome of the awaited call
    as its argument.  A handler reads the state of the latest render.
    Rendering itself (the JSX, scrolling the transcript into view) is not
    modelled. *)

From Stdlib Require Import Strings.String Strings.Ascii Numbers.DecimalString.
From stdpp Require Import base decidable option list relations.
From Stdlib Require Import ZArith.
From Stdlib Require DecimalZ.

Set Default Proof Using "Type".

(** ** JavaScript values used by the two files *)

Module JS.

(** A string value: its UTF-16 code units. *)
Abbreviation jsstring := (list N).

(** A source literal (all literals of the two files are ASCII). *)
Definition lit (s : string) : jsstring :=
  (λ a, N_of_ascii a) <$> list_ascii_of_string s.
Arguments lit : simpl never.

(** [ToBoolean] on [string | undefined]: [undefined] and the empty string are
    falsy, every other string is truthy. *)
Definition truthy (v : option jsstring) : bool :=
  match v with
  | Some (_ :: _) => true
  | _ => false
  end.

(** [v || d] for [v : string | undefined] and a string [d]. *)
Definition or_default (v : option jsstring) (d : jsstring) : jsstring :=
  match v with
  | Some (c :: s) => c :: s
  | _ => d
  end.

(** [a === b] on strings. *)
Definition strict_eq (a b : jsstring) : bool := bool_decide (a = b).

(** [v === b] where [v] may be [undefined] and [b] is a string. *)
Definition opt_strict_eq (v : option jsstring) (b : jsstring) : bool :=
  bool_decide (v = Some b).

(** ECMA-262 [WhiteSpace] and [LineTerminator] code points, the characters
    that [String.prototype.trim] strips.  All lie in the basic plane, so each
    is one code unit. *)
Definition isWhiteSpace (c : N) : bool :=
  ((c =? 0x0009) || (c =? 0x000A) || (c =? 0x000B) || (c =? 0x000C)
   || (c =? 0x000D) || (c =? 0x0020) || (c =? 0x00A0) || (c =? 0x1680)
   || ((0x2000 <=? c) && (c <=? 0x200A))
   || (c =? 0x2028) || (c =? 0x2029) || (c =? 0x202F) || (c =? 0x205F)
   || (c =? 0x3000) || (c =? 0xFEFF))%N.

Fixpoint trimStart (s : jsstring) : jsstring :=
  match s with
  | [] => []
  | c :: s' => if isWhiteSpace c then trimStart s' else s
  end.

Definition trimEnd (s : jsstring) : jsstring :=
  reverse (trimStart (reverse s)).

(** [s.trim()] *)
Definition trim (s : jsstring) : jsstring := trimEnd (trimStart s).

(** Decimal digits of a [Decimal.uint] as code units. *)
Fixpoint uint_units (d : Decimal.uint) : jsstring :=
  match d with
  | Decimal.Nil => []
  | Decimal.D0 d => 48%N :: uint_units d
  | Decimal.D1 d => 49%N :: uint_units d
  | Decimal.D2 d => 50%N :: uint_units d
  | Decimal.D3 d => 51%N :: uint_units d
  | Decimal.D4 d => 52%N :: uint_units d
  | Decimal.D5 d => 53%N :: uint_units d
  | Decimal.D6 d => 54%N :: uint_units d
  | Decimal.D7 d => 55%N :: uint_units d
  | Decimal.D8 d => 56%N :: uint_units d
  | Decimal.D9 d => 57%N :: uint_units d
  end.

(** [n.toString()] for an integral number [n] (radix 10). *)
Definition toString (n : Z) : jsstring :=
  match Z.to_int n with
  | Decimal.Pos d => uint_units d
  | Decimal.Neg d => 45%N :: uint_units d
  end.

(** A thrown value: an [Error] carrying a message, or anything else. *)
Inductive Thrown :=
| ErrorObj (message : jsstring)
| NonError.

(** Outcome of a call that may throw (or of a promise that may reject). *)
Inductive result (A : Type) :=
| Ok (a : A)
| Throw (e : Thrown).
Arguments Ok {A} a.
Arguments Throw {A} e.

End JS.

(** ** [src/lib/twin-sdk.ts] *)

Module TwinSdk.
Import JS.

(** [import.meta.env]: the two build-time configuration values. *)
Record Env := {
  VITE_PLATFORM_API_KEY : option jsstring;
  VITE_PLATFORM_API_URL : option jsstring;
}.

(** The options object handed to [new SoulCypherSDK({apiKey, baseUrl})]; the
    client itself is opaque and identified with how it was constructed. *)
Record SoulCypherSDK := {
  apiKey : jsstring;
  baseUrl : jsstring;
}.

Definition placeholder_key : jsstring := lit "sk_xxxxx".

Definition default_base_url : jsstring := lit "https://api.soulcypher.ai".

Definition not_configured_message : jsstring :=
  lit "SoulCypher Platform API key not configured. Set VITE_PLATFORM_API_KEY in your .env.local file. "
  ++ lit "Get your API key from https://dev.soulcypher.ai".

(** [getPlatformSDK()].  The module variable [sdk] is passed in and its new
    value is returned together with the result of the call. *)
Definition getPlatformSDK (env : Env) (sdk : option SoulCypherSDK)
  : result SoulCypherSDK * option SoulCypherSDK :=
  match sdk with
  | Some c => (Ok c, sdk)
  | None =>
      let failure := (Throw (ErrorObj not_configured_message), None) in
      match VITE_PLATFORM_API_KEY env with
      | None => failure          (* [!undefined] *)
      | Some apiKey =>
          if negb (truthy (Some apiKey)) || strict_eq apiKey placeholder_key
          then failure
          else
            let c := {| apiKey := apiKey;
                        baseUrl := or_default (VITE_PLATFORM_API_URL env)
                                              default_base_url |} in
            (Ok c, Some c)
      end
  end.

(** [isPlatformSDKConfigured()] *)
Definition isPlatformSDKConfigured (env : Env) : bool :=
  let apiKey := VITE_PLATFORM_API_KEY env in
  truthy apiKey && negb (opt_strict_eq apiKey placeholder_key).

End TwinSdk.

(** ** [src/components/TwinSDKExample.tsx] *)

Module TwinSDKExample.
Import JS.

Inductive Role := user | assistant.

(** [interface Message]; [timestamp] is the [Date]'s time value. *)
Record Message := {
  id : jsstring;
  role : Role;
  content : jsstring;
  timestamp : Z;
}.

(** The source's constant; its comment asks the integrator to replace it, so
    the controller below takes the avatar id as a parameter. *)
Definition DEMO_AVATAR_ID : jsstring := lit "your-avatar-id-here".

(** The [data] object of an [avatar.*] event.  The handlers read four
    optional string fields from it. *)
Record EventData := {
  status : option jsstring;
  inputType : option jsstring;
  text : option jsstring;
  message : option jsstring;
}.

(** An event object: [{ data?: ... }]. *)
Record AvatarEvent := { data : option EventData }.

(** [event.data?.f] *)
Definition field (f : EventData → option jsstring) (event : AvatarEvent)
  : option jsstring :=
  d ← data event; f d.

(** Event kinds the session manager emits (the comment above the
    registrations lists six; the component listens to four). *)
Inductive EventKind :=
| avatar_status | avatar_input | avatar_response
| avatar_audio | avatar_video | avatar_error.

(** The JSON body of the backend's answer: an object whose [error] field, when
    present, is a string; the rest is opaque and kept as serialized text. *)
Record JsonBody := {
  body_error : option jsstring;
  body_raw : jsstring;
}.

(** Session managers are opaque; each constructed one gets a fresh number. *)
Abbreviation ManagerId := nat.

(** What [console.log] / [console.error] is given after its label. *)
Inductive ConsoleArg :=
| CString (v : option jsstring)
| CData (d : option EventData)
| CThrown (e : Thrown).

(** Calls into external collaborators, as they appear in the source. *)
Inductive Effect :=
| toast_info (title : jsstring)
| toast_success (title : jsstring) (description : option jsstring)
| toast_error (title : jsstring) (description : option jsstring)
| console_log (label : jsstring) (arg : ConsoleArg)
| console_error (label : jsstring) (arg : ConsoleArg)
| fetch_sessions (avatarId userId source : jsstring)
| response_json
| new_AvatarSessionManager (m : ManagerId) (sessionData : JsonBody)
| manager_on (m : ManagerId) (kind : EventKind)
| manager_connect (m : ManagerId)
| manager_sendMessage (m : ManagerId) (text : jsstring)
| manager_disconnect (m : ManagerId).

(** The component's React state and its [sessionManagerRef]. *)
Record State := {
  messages : list Message;
  input : jsstring;
  isInitializing : bool;
  isSending : bool;
  isWaitingForResponse : bool;
  error : option jsstring;
  sessionManagerRef : option ManagerId;
}.

(** An [async] call suspended at an [await]. *)
Inductive Task :=
| InitAwaitFetch                       (* [await fetch('/api/sessions', ...)] *)
| InitAwaitJson (ok : bool)            (* [await sessionResponse.json()] *)
| InitAwaitConnect (m : ManagerId)     (* [await manager.connect()] *)
| SendAwait.                           (* [await ....sendMessage(content)] *)

(** The controller together with its environment: state, suspended calls, the
    effect log (oldest first), the next fresh manager number, and whether the
    component is still mounted. *)
Record World := {
  st : State;
  pending : list Task;
  effects : list Effect;
  nextManager : ManagerId;
  mounted : bool;
}.

Definition initialState : State :=
  {| messages := []; input := []; isInitializing := false; isSending := false;
     isWaitingForResponse := false; error := None;
     sessionManagerRef := None |}.

Definition initialWorld : World :=
  {| st := initialState; pending := []; effects := []; nextManager := 0;
     mounted := true |}.

(** *** Commands: synchronous code segments *)

Definition Cmd := World → World.

Definition seq (c1 c2 : Cmd) : Cmd := λ w, c2 (c1 w).
Infix ">>>" := seq (at level 61, left associativity).

Definition skip : Cmd := λ w, w.

Definition modify (f : State → State) : Cmd := λ w,
  {| st := f (st w); pending := pending w; effects := effects w;
     nextManager := nextManager w; mounted := mounted w |}.

(** Perform an external call: append it to the log. *)
Definition emit (e : Effect) : Cmd := λ w,
  {| st := st w; pending := pending w; effects := effects w ++ [e];
     nextManager := nextManager w; mounted := mounted w |}.

(** Suspend at an [await]. *)
Definition suspend (t : Task) : Cmd := λ w,
  {| st := st w; pending := pending w ++ [t]; effects := effects w;
     nextManager := nextManager w; mounted := mounted w |}.

(** The React setters and the ref assignment. *)
Definition setMessages (f : list Message → list Message) : Cmd :=
  modify (λ s, {| messages := f (messages s); input := input s;
                  isInitializing := isInitializing s; isSending := isSending s;
                  isWaitingForResponse := isWaitingForResponse s;
                  error := error s;
                  sessionManagerRef := sessionManagerRef s |}).

Definition setInput (v : jsstring) : Cmd :=
  modify (λ s, {| messages := messages s; input := v;
                  isInitializing := isInitializing s; isSending := isSending s;
                  isWaitingForResponse := isWaitingForResponse s;
                  error := error s;
                  sessionManagerRef := sessionManagerRef s |}).

Definition setIsInitializing (b : bool) : Cmd :=
  modify (λ s, {| messages := messages s; input := input s;
                  isInitializing := b; isSending := isSending s;
                  isWaitingForResponse := isWaitingForResponse s;
                  error := error s;
                  sessionManagerRef := sessionManagerRef s |}).

Definition setIsSending (b : bool) : Cmd :=
  modify (λ s, {| messages := messages s; input := input s;
                  isInitializing := isInitializing s; isSending := b;
                  isWaitingForResponse := isWaitingForResponse s;
                  error := error s;
                  sessionManagerRef := sessionManagerRef s |}).

Definition setIsWaitingForResponse (b : bool) : Cmd :=
  modify (λ s, {| messages := messages s; input := input s;
                  isInitializing := isInitializing s; isSending := isSending s;
                  isWaitingForResponse := b;
                  error := error s;
                  sessionManagerRef := sessionManagerRef s |}).

Definition setError (v : option jsstring) : Cmd :=
  modify (λ s, {| messages := messages s; input := input s;
                  isInitializing := isInitializing s; isSending := isSending s;
                  isWaitingForResponse := isWaitingForResponse s;
                  error := v;
                  sessionManagerRef := sessionManagerRef s |}).

Definition set_sessionManagerRef (m : ManagerId) : Cmd :=
  modify (λ s, {| messages := messages s; input := input s;
                  isInitializing := isInitializing s; isSending := isSending s;
                  isWaitingForResponse := isWaitingForResponse s;
                  error := error s;
                  sessionManagerRef := Some m |}).

(** [err instanceof Error ? err.message : d] *)
Definition message_or (e : Thrown) (d : jsstring) : jsstring :=
  match e with
  | ErrorObj m => m
  | NonError => d
  end.

Global Instance Task_eq_dec : EqDecision Task.
Proof. solve_decision. Defined.

(** Resume a suspended call: take its task out of [pending].  [None] when no
    such call is suspended. *)
Fixpoint remove_task (t : Task) (l : list Task) : option (list Task) :=
  match l with
  | [] => None
  | t' :: l' => if decide (t = t') then Some l'
                else (t' ::.) <$> remove_task t l'
  end.

Definition resume (t : Task) (w : World) : option World :=
  l ← remove_task t (pending w);
  Some {| st := st w; pending := l; effects := effects w;
          nextManager := nextManager w; mounted := mounted w |}.

(** [new AvatarSessionManager(sessionData)]: the fresh manager's number is the
    world's counter, which is then advanced. *)
Definition construct_manager (sessionData : JsonBody) : Cmd := λ w,
  {| st := st w; pending := pending w;
     effects := effects w ++ [new_AvatarSessionManager (nextManager w) sessionData];
     nextManager := S (nextManager w); mounted := mounted w |}.

Definition avatar_placeholder : jsstring := lit "your-avatar-id-here".

Definition double_quote : jsstring := [34%N].

Section Controller.

(** Build-time configuration, and the avatar id the integrator put in place
    of the source's [DEMO_AVATAR_ID]. *)
Variable env : TwinSdk.Env.
Variable DEMO_AVATAR_ID : jsstring.

(** [const isConfigured = isPlatformSDKConfigured()] *)
Definition isConfigured : bool := TwinSdk.isPlatformSDKConfigured env.

(** The [catch] block of [initializeSession]. *)
Definition initializeSession_catch (err : Thrown) : Cmd :=
  let errorMessage := message_or err (lit "Failed to initialize session") in
  emit (console_error (lit "Failed to initialize session:") (CThrown err))
  >>> setError (Some errorMessage)
  >>> emit (toast_error (lit "Initialization failed") (Some errorMessage))
  >>> setIsInitializing false.

(** [initializeSession], from its call to [await fetch(...)]. *)
Definition initializeSession : Cmd := λ w,
  match sessionManagerRef (st w) with
  | Some _ => emit (toast_info (lit "Session already initialized")) w
  | None =>
      if negb isConfigured then
        emit (toast_error (lit "Platform API key not configured")
                (Some (lit "Set VITE_PLATFORM_API_KEY in .env.local"))) w
      else if strict_eq DEMO_AVATAR_ID avatar_placeholder then
        emit (toast_error (lit "Avatar ID not configured")
                (Some (lit "Replace DEMO_AVATAR_ID in TwinSDKExample.tsx with your actual avatar ID"))) w
      else
        (setIsInitializing true
         >>> setError None
         >>> emit (fetch_sessions DEMO_AVATAR_ID (lit "demo-user")
                     (lit "twin-sdk-example"))
         >>> suspend InitAwaitFetch) w
  end.

(** ... from the settling of [fetch] to [await sessionResponse.json()]; both
    branches on [sessionResponse.ok] start by awaiting the body.  [r] is the
    [ok] flag of the response, or what [fetch] rejected with. *)
Definition initializeSession_fetched (r : result bool) : Cmd :=
  match r with
  | Throw err => initializeSession_catch err
  | Ok ok => emit response_json >>> suspend (InitAwaitJson ok)
  end.

(** The event observers, in registration order. *)

Definition on_avatar_status (event : AvatarEvent) : Cmd :=
  emit (console_log (lit "Avatar status:") (CString (field status event)))
  >>> if opt_strict_eq (field status event) (lit "ready")
      then emit (toast_success (lit "Avatar is ready!") None)
           >>> setIsInitializing false
      else skip.

Definition on_avatar_input (now date : Z) (event : AvatarEvent) : Cmd :=
  if opt_strict_eq (field inputType event) (lit "voice") then
    let userMessage :=
      {| id := toString now; role := user;
         content := or_default (field text event) (lit "Voice input received");
         timestamp := date |} in
    setMessages (λ prev, prev ++ [userMessage])
    >>> setIsWaitingForResponse true
  else skip.

Definition on_avatar_response (now date : Z) (event : AvatarEvent) : Cmd :=
  let assistantMessage :=
    {| id := toString now; role := assistant;
       content := or_default (field text event) (lit "Response received");
       timestamp := date |} in
  setMessages (λ prev, prev ++ [assistantMessage])
  >>> setIsWaitingForResponse false.

Definition on_avatar_error (event : AvatarEvent) : Cmd :=
  emit (console_error (lit "Avatar error:") (CData (data event)))
  >>> emit (toast_error (lit "Avatar error")
              (Some (or_default (field message event)
                       (lit "Unknown error occurred"))))
  >>> setIsWaitingForResponse false.

(** What the session manager does when it emits an event of kind [kind]: it
    calls the observer registered for that kind, if any.  [now] is what
    [Date.now()] reads and [date] the time value of [new Date()]. *)
Definition dispatch (kind : EventKind) (now date : Z) (event : AvatarEvent)
  : Cmd :=
  match kind with
  | avatar_status => on_avatar_status event
  | avatar_input => on_avatar_input now date event
  | avatar_response => on_avatar_response now date event
  | avatar_error => on_avatar_error event
  | avatar_audio | avatar_video => skip
  end.

(** ... from the settling of [sessionResponse.json()] to
    [await manager.connect()].  The constructor and [on] belong to the SDK and
    are taken not to throw. *)
Definition initializeSession_parsed (ok : bool) (r : result JsonBody) : Cmd :=
  match r with
  | Throw err => initializeSession_catch err
  | Ok body =>
      if negb ok then
        (* [throw new Error(errorData.error || 'Failed to create session')] *)
        initializeSession_catch
          (ErrorObj (or_default (body_error body)
                       (lit "Failed to create session")))
      else λ w,
        let manager := nextManager w in
        (construct_manager body
         >>> emit (manager_on manager avatar_status)
         >>> emit (manager_on manager avatar_input)
         >>> emit (manager_on manager avatar_response)
         >>> emit (manager_on manager avatar_error)
         >>> emit (manager_connect manager)
         >>> suspend (InitAwaitConnect manager)) w
  end.

(** ... from the settling of [manager.connect()] to the end. *)
Definition initializeSession_connected (manager : ManagerId)
    (r : result unit) : Cmd :=
  match r with
  | Throw err => initializeSession_catch err
  | Ok _ =>
      set_sessionManagerRef manager
      >>> setIsInitializing false
      >>> emit (toast_success (lit "Session initialized")
                  (Some (lit "You can now chat with the avatar")))
  end.

(** [sendMessage], from its call to [await ....sendMessage(content)]. *)
Definition sendMessage (now date : Z) : Cmd := λ w,
  if negb (truthy (Some (trim (input (st w))))) || isSending (st w) then w
  else
    match sessionManagerRef (st w) with
    | None =>
        emit (toast_error (lit "Session not initialized")
                (Some (lit "Click " ++ double_quote ++ lit "Start Session"
                       ++ double_quote ++ lit " first"))) w
    | Some current =>
        let userMessage :=
          {| id := toString now; role := user;
             content := trim (input (st w)); timestamp := date |} in
        (setMessages (λ prev, prev ++ [userMessage])
         >>> setInput []
         >>> setIsSending true
         >>> setIsWaitingForResponse true
         >>> emit (manager_sendMessage current (content userMessage))
         >>> suspend SendAwait) w
    end.

(** ... from the settling of the forward call: [catch], then [finally]. *)
Definition sendMessage_settled (r : result unit) : Cmd :=
  match r with
  | Ok _ => skip
  | Throw err =>
      emit (console_error (lit "Failed to send message:") (CThrown err))
      >>> emit (toast_error (lit "Failed to send message")
                  (Some (message_or err (lit "Unknown error"))))
      >>> setIsWaitingForResponse false
  end
  >>> setIsSending false.

(** The cleanup of the mount effect. *)
Definition unmount_cleanup : Cmd := λ w,
  let w' := match sessionManagerRef (st w) with
            | Some current => emit (manager_disconnect current) w
            | None => w
            end in
  {| st := st w'; pending := pending w'; effects := effects w';
     nextManager := nextManager w'; mounted := false |}.

(** *** The event loop *)

(** What can happen to a mounted controller: a user action, the settling of
    an awaited call, an event from a constructed session manager, unmount. *)
Inductive Action :=
| call_initializeSession
| call_setInput (v : jsstring)
| call_sendMessage (now date : Z)
| fetch_settled (r : result bool)
| json_settled (ok : bool) (r : result JsonBody)
| connect_settled (manager : ManagerId) (r : result unit)
| send_settled (r : result unit)
| manager_emits (manager : ManagerId) (kind : EventKind) (now date : Z)
    (event : AvatarEvent)
| unmount.

(** One turn of the event loop of a mounted controller; [None] when the
    action cannot happen in [w] (a settling needs its suspended call, an event
    needs a manager that was constructed).  The model ends at unmount: the
    cleanup cancels nothing, so in the source a call still suspended then
    resumes later; what it does then is outside the model, and [run] has no
    turn for it. *)
Definition run (a : Action) (w : World) : option World :=
  if negb (mounted w) then None else
  match a with
  | call_initializeSession => Some (initializeSession w)
  | call_setInput v => Some (setInput v w)
  | call_sendMessage now date => Some (sendMessage now date w)
  | fetch_settled r => initializeSession_fetched r <$> resume InitAwaitFetch w
  | json_settled ok r =>
      initializeSession_parsed ok r <$> resume (InitAwaitJson ok) w
  | connect_settled manager r =>
      initializeSession_connected manager r
        <$> resume (InitAwaitConnect manager) w
  | send_settled r => sendMessage_settled r <$> resume SendAwait w
  | manager_emits manager kind now date event =>
      if decide (manager < nextManager w)
      then Some (dispatch kind now date event w)
      else None
  | unmount => Some (unmount_cleanup w)
  end.

(** A sequence of turns. *)
Fixpoint run_all (tr : list Action) (w : World) : option World :=
  match tr with
  | [] => Some w
  | a :: tr' => w' ← run a w; run_all tr' w'
  end.

(** The worlds a controller can be in during its lifetime. *)
Definition reachable (w : World) : Prop :=
  ∃ tr, run_all tr initialWorld = Some w.

End Controller.

(** *** Observations on the effect log *)

Definition is_fetch (e : Effect) : bool :=
  match e with fetch_sessions _ _ _ => true | _ => false end.

Definition is_construction (e : Effect) : bool :=
  match e with new_AvatarSessionManager _ _ => true | _ => false end.

Definition is_forward (e : Effect) : bool :=
  match e with manager_sendMessage _ _ => true | _ => false end.

(** Number of backend session-creation exchanges started so far. *)
Definition exchanges (w : World) : nat := length (filter is_fetch (effects w)).

(** Number of session managers constructed so far. *)
Definition constructions (w : World) : nat :=
  length (filter is_construction (effects w)).

(** Number of forward calls issued so far. *)
Definition forwards (w : World) : nat :=
  length (filter is_forward (effects w)).

Definition is_init_task (t : Task) : bool :=
  match t with SendAwait => false | _ => true end.

End TwinSDKExample.

(** ** The error kinds and signals of the specification, as the source
    raises them *)

Module Signals.
Import JS TwinSDKExample.

(** [msg] contains [v] as a contiguous substring. *)
Definition mentions (v msg : jsstring) : Prop :=
  ∃ pre post, msg = pre ++ v ++ post.

(** The thrown [Error] of [getPlatformSDK] is a ConfigurationError naming the
    variable when its message mentions the variable's name. *)
Definition ConfigurationError_naming (variable : jsstring) (e : Thrown)
  : Prop :=
  ∃ msg, e = ErrorObj msg ∧ mentions variable msg.

(** The controller signals through toasts. *)
Definition already_initialized : Effect :=
  toast_info (lit "Session already initialized").

Definition ConfigurationError_apiKey : Effect :=
  toast_error (lit "Platform API key not configured")
    (Some (lit "Set VITE_PLATFORM_API_KEY in .env.local")).

Definition NotInitializedError : Effect :=
  toast_error (lit "Session not initialized")
    (Some (lit "Click " ++ double_quote ++ lit "Start Session"
           ++ double_quote ++ lit " first")).

(** A string made of white space only (the empty string included). *)
Definition blank (s : jsstring) : Prop :=
  Forall (λ c, isWhiteSpace c = true) s.

(** An action that delivers an event to the controller. *)
Definition is_event (a : Action) : bool :=
  match a with manager_emits _ _ _ _ _ => true | _ => false end.

End Signals.

Import JS TwinSdk TwinSDKExample Signals.

(** ** Sample values used by the examples *)

Definition sample_env : Env :=
  {| VITE_PLATFORM_API_KEY := Some (lit "sk_live_1");
     VITE_PLATFORM_API_URL := None |}.

Definition empty_key_env : Env :=
  {| VITE_PLATFORM_API_KEY := Some [];
     VITE_PLATFORM_API_URL := None |}.

Definition sample_avatar : jsstring := lit "avatar-1".

Definition sample_body : JsonBody :=
  {| body_error := None; body_raw := lit "{sessionId:s1}" |}.

Definition event_with (d : EventData) : AvatarEvent := {| data := Some d |}.

Definition no_fields : EventData :=
  {| status := None; inputType := None; text := None; message := None |}.

(** [initialize] run to success: the backend answers, [connect] resolves, and
    no event is delivered meanwhile. *)
Definition successful_initialize : list Action :=
  [call_initializeSession; fetch_settled (Ok true);
   json_settled true (Ok sample_body); connect_settled 0 (Ok tt)].

(** [initialize] whose [connect] rejects, followed by a second [initialize]
    that gets as far as its own [connect]. *)
Definition failed_then_retried : list Action :=
  [call_initializeSession; fetch_settled (Ok true);
   json_settled true (Ok sample_body);
   connect_settled 0 (Throw (ErrorObj (lit "socket closed")));
   call_initializeSession; fetch_settled (Ok true);
   json_settled true (Ok sample_body)].

(** The world after [successful_initialize]. *)
Definition ready_world : World :=
  {| st := {| messages := []; input := []; isInitializing := false;
              isSending := false; isWaitingForResponse := false;
              error := None; sessionManagerRef := Some 0 |};
     pending := [];
     effects :=
       [fetch_sessions sample_avatar (lit "demo-user") (lit "twin-sdk-example");
        response_json;
        new_AvatarSessionManager 0 sample_body;
        manager_on 0 avatar_status; manager_on 0 avatar_input;
        manager_on 0 avatar_response; manager_on 0 avatar_error;
        manager_connect 0;
        toast_success (lit "Session initialized")
          (Some (lit "You can now chat with the avatar"))];
     nextManager := 1; mounted := true |}.

(** After a successful [initialize]: the user types [hi], sends it, and the
    forward call rejects.  No event is delivered. *)
Definition forward_rejected : list Action :=
  successful_initialize
  ++ [call_setInput (lit "hi"); call_sendMessage 5 6;
      send_settled (Throw (ErrorObj (lit "offline")))].

(** [forward_rejected] without its last turn: the forward call is pending. *)
Definition forward_pending : list Action :=
  successful_initialize ++ [call_setInput (lit "hi"); call_sendMessage 5 6].

(** A [response] event whose payload carries the empty string as [text]. *)
Definition empty_text_response : AvatarEvent :=
  event_with {| status := None; inputType := None; text := Some [];
                message := None |}.

Definition hello_response : AvatarEvent :=
  event_with {| status := None; inputType := None; text := Some (lit "hello");
                message := None |}.

Definition voice_input : AvatarEvent :=
  event_with {| status := None; inputType := Some (lit "voice");
                text := Some (lit "good morning"); message := None |}.

Definition typed_input : AvatarEvent :=
  event_with {| status := None; inputType := Some (lit "text");
                text := Some (lit "good morning"); message := None |}.

Definition ready_status : AvatarEvent :=
  event_with {| status := Some (lit "ready"); inputType := None;
                text := None; message := None |}.

Definition connecting_status : AvatarEvent :=
  event_with {| status := Some (lit "connecting"); inputType := None;
                text := None; message := None |}.

(** [ready_world] after the user typed [hi] and sent it: the forward call is
    pending. *)
Definition pending_world : World :=
  sendMessage 5 6 (setInput (lit "hi") ready_world).

(** [pending_world] after the forward call rejected. *)
Definition rejected_world : World :=
  sendMessage_settled (Throw (ErrorObj (lit "offline")))
    {| st := st pending_world; pending := [];
       effects := effects pending_world;
       nextManager := nextManager pending_world; mounted := true |}.

(** Turns taken after a successful [initialize]: two more [initialize] calls
    around a message being sent. *)
Definition more_initialize_calls : list Action :=
  [call_initializeSession; call_setInput (lit "hi"); call_sendMessage 5 6;
   call_initializeSession].

(** [ready_world] after [more_initialize_calls]. *)
Definition busy_world : World :=
  initializeSession sample_env sample_avatar
    (sendMessage 5 6
       (setInput (lit "hi")
          (initializeSession sample_env sample_avatar ready_world))).

(** ** Invariants *)

(** A send is in flight only if a session manager is retained. *)
Definition sending_needs_session (w : World) : Prop :=
  sessionManagerRef (st w) = None → isSending (st w) = false.

(** Under a configuration without a usable key nothing ever starts: no
    session manager is retained or constructed, no call is suspended, and no
    exchange with the backend has begun. *)
Definition never_started (w : World) : Prop :=
  sessionManagerRef (st w) = None ∧ pending w = [] ∧ nextManager w = 0
  ∧ exchanges w = 0.

(** A session manager is retained and no [initialize] call is suspended. *)
Definition session_settled (w : World) : Prop :=
  is_Some (sessionManagerRef (st w))
  ∧ Forall (λ t, t = SendAwait) (pending w).

(** ** Proof automation *)

(** Unfold the command combinators down to record construction. *)
Ltac cmd_unfold :=
  cbv beta iota zeta delta
    [sendMessage_settled initializeSession_connected
     initializeSession_catch on_avatar_status on_avatar_input
     on_avatar_response on_avatar_error unmount_cleanup construct_manager
     seq skip setMessages setInput setIsInitializing setIsSending
     setIsWaitingForResponse setError set_sessionManagerRef suspend emit
     modify st pending effects nextManager mounted messages input
     isInitializing isSending isWaitingForResponse error sessionManagerRef]
    in *.

Ltac cmd := cmd_unfold; simpl in *.

(** Split a turn into the code segment it runs. *)
Ltac turn H :=
  unfold run in H;
  match type of H with
  | context [mounted ?w] => destruct (mounted w) eqn:?; simpl in H;
                            [|discriminate H]
  end;
  try match type of H with
  | context [match ?a with call_initializeSession => _ | _ => _ end] =>
      destruct a as [ |?v|?now ?date|?r|?ok ?r|?manager ?r|?r
                     |?manager ?kind ?now ?date ?event| ]
  end;
  try match type of H with
  | context [decide ?P] => destruct (decide P); [|discriminate H]
  end;
  try match type of H with
  | context [resume ?t ?w] =>
      let w1 := fresh "w1" in
      let Hres := fresh "Hres" in
      destruct (resume t w) as [w1|] eqn:Hres; simpl in H; [|discriminate H];
      unfold resume in Hres;
      destruct (remove_task t (pending w)) eqn:?; simpl in Hres;
      [|discriminate Hres];
      injection Hres as <-
  end;
  injection H as <-.

(** Case analysis inside the segments. *)
Ltac segments :=
  unfold initializeSession, initializeSession_fetched,
    initializeSession_parsed, sendMessage, dispatch in *;
  cmd_unfold; repeat case_match; simpl in *.


(** ** Callers and the rendered controls *)

(** A sequence of [getPlatformSDK()] calls, each under the configuration in
    force when it is made: the results in order, and the module variable
    [sdk] at the end. *)
Fixpoint getPlatformSDK_calls (envs : list Env) (sdk : option SoulCypherSDK)
  : list (result SoulCypherSDK) * option SoulCypherSDK :=
  match envs with
  | [] => ([], sdk)
  | env :: envs' =>
      let r := getPlatformSDK env sdk in
      let rs := getPlatformSDK_calls envs' r.2 in
      (r.1 :: rs.1, rs.2)
  end.

(** [disabled={!input.trim() || isSending || !sessionManagerRef.current}] on
    the send button. *)
Definition sendButton_disabled (w : World) : bool :=
  negb (truthy (Some (trim (input (st w))))) || isSending (st w)
  || negb (bool_decide (is_Some (sessionManagerRef (st w)))).

(** ** Further observations on the log and on strings *)

Definition is_disconnect (e : Effect) : bool :=
  match e with manager_disconnect _ => true | _ => false end.

(** Effects that reach the backend or the session manager (everything but
    toasts and console output). *)
Definition is_outbound (e : Effect) : bool :=
  match e with
  | toast_info _ | toast_success _ _ | toast_error _ _
  | console_log _ _ | console_error _ _ => false
  | _ => true
  end.

(** The kinds the component registers an observer for. *)
Definition listened : list EventKind :=
  [avatar_status; avatar_input; avatar_response; avatar_error].

(** No white space at the start. *)
Definition starts_clean (s : jsstring) : Prop :=
  match s with
  | [] => True
  | c :: _ => isWhiteSpace c = false
  end.

(** Number of suspended forward calls. *)
Definition forwards_in_flight (w : World) : nat :=
  length (filter (λ t, t = SendAwait) (pending w)).

(** ** Further invariants *)

(** The sending flag is set exactly while one forward call is suspended. *)
Definition sending_tracks_forward (w : World) : Prop :=
  forwards_in_flight w = (if isSending (st w) then 1 else 0)
  ∧ (isSending (st w) = true → is_Some (sessionManagerRef (st w))).

(** While the initializing flag is set, an [initialize] call is suspended. *)
Definition initializing_has_call (w : World) : Prop :=
  isInitializing (st w) = true →
  ∃ t, t ∈ pending w ∧ is_init_task t = true.

(** A manager was constructed, had its four observers registered, and was
    asked to connect, in the log [l]. *)
Definition prepared (m : ManagerId) (next : ManagerId) (l : list Effect)
  : Prop :=
  m < next
  ∧ (∃ sessionData, new_AvatarSessionManager m sessionData ∈ l)
  ∧ (∀ kind, kind ∈ listened → manager_on m kind ∈ l)
  ∧ manager_connect m ∈ l.

(** The retained manager, and every manager whose [connect] is awaited, is
    prepared; forward calls went to prepared managers only. *)
Definition managers_prepared (w : World) : Prop :=
  (∀ m, sessionManagerRef (st w) = Some m →
        prepared m (nextManager w) (effects w))
  ∧ (∀ m, InitAwaitConnect m ∈ pending w →
          prepared m (nextManager w) (effects w))
  ∧ (∀ m t, manager_sendMessage m t ∈ effects w →
            prepared m (nextManager w) (effects w)).

(** In the log [l], every [connect] request comes after the registration of
    the four observers on the same manager. *)
Definition observers_first (l : list Effect) : Prop :=
  ∀ pre post m kind,
    l = pre ++ manager_connect m :: post →
    kind ∈ listened → manager_on m kind ∈ pre.

(** Every forwarded text is trimmed, not empty, and the content of a user
    message of the transcript. *)
Definition forwards_in_transcript (w : World) : Prop :=
  ∀ m t, manager_sendMessage m t ∈ effects w →
         t ≠ [] ∧ trim t = t
         ∧ ∃ msg, msg ∈ messages (st w) ∧ role msg = user ∧ content msg = t.

(** While the component is mounted the log holds no [disconnect]
    request. *)
Definition disconnect_at_unmount (w : World) : Prop :=
  mounted w = true → filter is_disconnect (effects w) = [].

(** Nothing has left the component: no session manager, no suspended call,
    an empty transcript, and a log of toasts and console output only. *)
Definition inert (w : World) : Prop :=
  sessionManagerRef (st w) = None ∧ pending w = [] ∧ nextManager w = 0
  ∧ messages (st w) = []
  ∧ Forall (λ e, is_outbound e = false) (effects w).

(** The message that a failing [initialize] surfaces, for each settling that
    sends it to its [catch] block: what was thrown or rejected with, or the
    [Error] the code throws itself on a response that is not [ok]. *)
Definition initialize_failure (a : Action) : option jsstring :=
  match a with
  | fetch_settled (Throw err)
  | json_settled _ (Throw err)
  | connect_settled _ (Throw err) =>
      Some (message_or err (lit "Failed to initialize session"))
  | json_settled false (Ok body) =>
      Some (or_default (body_error body) (lit "Failed to create session"))
  | _ => None
  end.

(** The [Date.now()] readings a turn makes. *)
Definition clock_readings (a : Action) : list Z :=
  match a with
  | call_sendMessage now _ => [now]
  | manager_emits _ _ now _ _ => [now]
  | _ => []
  end.

(** Sample configurations for a sequence of client requests: no key, then a
    usable key, then another usable key with a URL override. *)
Definition no_key_env : Env :=
  {| VITE_PLATFORM_API_KEY := None; VITE_PLATFORM_API_URL := None |}.

Definition other_env : Env :=
  {| VITE_PLATFORM_API_KEY := Some (lit "sk_live_2");
     VITE_PLATFORM_API_URL := Some (lit "https://staging.example") |}.

Definition sample_client : SoulCypherSDK :=
  {| apiKey := lit "sk_live_1"; baseUrl := default_base_url |}.

(** A backend refusal: [initialize] has read a response that is not [ok],
    whose body names the reason. *)
Definition with_pending (l : list Task) (w : World) : World :=
  {| st := st w; pending := l; effects := effects w;
     nextManager := nextManager w; mounted := mounted w |}.

Definition refused_body : JsonBody :=
  {| body_error := Some (lit "quota exceeded"); body_raw := [] |}.

Definition awaiting_refusal_world : World :=
  initializeSession_fetched (Ok false)
    (with_pending []
       (initializeSession sample_env sample_avatar initialWorld)).

Definition refused_world : World :=
  initializeSession_parsed false (Ok refused_body)
    (with_pending [] awaiting_refusal_world).
(** ** Proofs *)

(** *** Strings *)

Lemma trimStart_blank s : blank s → trimStart s = [].
Proof.
  induction 1 as [|c s Hc _ IH]; simpl; [done|]. by rewrite Hc.
Qed.

Lemma trim_blank s : blank s → trim s = [].
Proof.
  intros H. unfold trim. by rewrite (trimStart_blank s H).
Qed.

Lemma truthy_Some_nonempty s : truthy (Some s) = true ↔ s ≠ [].
Proof. destruct s; simpl; split; congruence. Qed.

Lemma opt_strict_eq_true v b : opt_strict_eq v b = true ↔ v = Some b.
Proof. unfold opt_strict_eq. by rewrite bool_decide_eq_true. Qed.

Lemma opt_strict_eq_false v b : opt_strict_eq v b = false ↔ v ≠ Some b.
Proof. unfold opt_strict_eq. by rewrite bool_decide_eq_false. Qed.

Example trim_keeps_inner_space :
  trim (lit "  hi there  ") = lit "hi there".
Proof. reflexivity. Qed.

Example trim_strips_nbsp_and_newline :
  trim ([0xA0; 0x0A]%N ++ lit "x" ++ [0x2003; 0x09]%N) = lit "x".
Proof. reflexivity. Qed.

Example toString_examples :
  toString 1730000000000 = lit "1730000000000" ∧ toString 0 = lit "0"
  ∧ toString (-15) = lit "-15".
Proof. by vm_compute. Qed.

(** *** The client singleton *)

Lemma not_configured_message_names_variable :
  mentions (lit "VITE_PLATFORM_API_KEY") not_configured_message.
Proof.
  exists (lit "SoulCypher Platform API key not configured. Set "),
    (lit " in your .env.local file. Get your API key from https://dev.soulcypher.ai").
  reflexivity.
Qed.

Lemma isPlatformSDKConfigured_true env :
  isPlatformSDKConfigured env = true
  ↔ ∃ k, VITE_PLATFORM_API_KEY env = Some k ∧ k ≠ [] ∧ k ≠ placeholder_key.
Proof.
  unfold isPlatformSDKConfigured. rewrite andb_true_iff, negb_true_iff.
  rewrite opt_strict_eq_false. split.
  - intros [Ht Hne]. destruct (VITE_PLATFORM_API_KEY env) as [k|]; [|done].
    exists k. apply truthy_Some_nonempty in Ht. naive_solver.
  - intros (k & -> & Hk & Hp). rewrite truthy_Some_nonempty. naive_solver.
Qed.

Lemma isPlatformSDKConfigured_false env :
  isPlatformSDKConfigured env = false
  ↔ VITE_PLATFORM_API_KEY env = None ∨ VITE_PLATFORM_API_KEY env = Some []
    ∨ VITE_PLATFORM_API_KEY env = Some placeholder_key.
Proof.
  rewrite <-not_true_iff_false, isPlatformSDKConfigured_true. split.
  - intros Hn. destruct (VITE_PLATFORM_API_KEY env) as [k|]; [|by left].
    destruct (decide (k = [])) as [->|]; [by right; left|].
    destruct (decide (k = placeholder_key)) as [->|]; [by right; right|].
    destruct Hn. by exists k.
  - intros [H|[H|H]] (k & Hk & ? & ?); rewrite H in Hk; naive_solver.
Qed.

Lemma key_cases env :
  (VITE_PLATFORM_API_KEY env = None ∨ VITE_PLATFORM_API_KEY env = Some []
   ∨ VITE_PLATFORM_API_KEY env = Some placeholder_key)
  ∨ (∃ k, VITE_PLATFORM_API_KEY env = Some k ∧ k ≠ [] ∧ k ≠ placeholder_key).
Proof.
  destruct (isPlatformSDKConfigured env) eqn:H.
  - right. by apply isPlatformSDKConfigured_true.
  - left. by apply isPlatformSDKConfigured_false.
Qed.

Lemma getPlatformSDK_unusable env :
  VITE_PLATFORM_API_KEY env = None ∨ VITE_PLATFORM_API_KEY env = Some []
  ∨ VITE_PLATFORM_API_KEY env = Some placeholder_key →
  getPlatformSDK env None = (Throw (ErrorObj not_configured_message), None).
Proof.
  unfold getPlatformSDK. intros [->|[->| ->]]; reflexivity.
Qed.

Lemma getPlatformSDK_usable env k :
  VITE_PLATFORM_API_KEY env = Some k → k ≠ [] → k ≠ placeholder_key →
  getPlatformSDK env None
  = (Ok {| apiKey := k;
           baseUrl := or_default (VITE_PLATFORM_API_URL env) default_base_url |},
     Some {| apiKey := k;
             baseUrl := or_default (VITE_PLATFORM_API_URL env)
                          default_base_url |}).
Proof.
  intros Hk Hne Hp. unfold getPlatformSDK. rewrite Hk.
  assert (truthy (Some k) = true) as -> by by apply truthy_Some_nonempty.
  unfold strict_eq. by rewrite bool_decide_eq_false_2.
Qed.

(** C4, as stated, fails: with the key set to the empty string the first call
    throws, although the key is neither absent nor the placeholder. *)
Lemma getPlatformSDK_empty_key_throws :
  ¬ ((∃ e, (getPlatformSDK empty_key_env None).1 = Throw e)
     ↔ (VITE_PLATFORM_API_KEY empty_key_env = None
        ∨ VITE_PLATFORM_API_KEY empty_key_env = Some placeholder_key)).
Proof.
  intros [H _]. destruct H as [H|H].
  - eexists. reflexivity.
  - discriminate H.
  - discriminate H.
Qed.

(** C4 (amended).  The first call to [getPlatformSDK] (nothing cached) throws
    if and only if the API key is absent, empty, or the placeholder
    [sk_xxxxx]; what it throws is an error whose message names
    [VITE_PLATFORM_API_KEY], and nothing is cached.  Otherwise it constructs
    the client from the key and the configured base URL (the fixed platform
    URL when that is absent or empty) and caches it.  Once a client is cached,
    every call returns it and keeps it, whatever the configuration. *)
Theorem getPlatformSDK_first_and_later_calls env :
  ((∃ e, (getPlatformSDK env None).1 = Throw e)
   ↔ VITE_PLATFORM_API_KEY env = None ∨ VITE_PLATFORM_API_KEY env = Some []
     ∨ VITE_PLATFORM_API_KEY env = Some placeholder_key)
  ∧ (∀ e, (getPlatformSDK env None).1 = Throw e →
       ConfigurationError_naming (lit "VITE_PLATFORM_API_KEY") e
       ∧ (getPlatformSDK env None).2 = None)
  ∧ (∀ k, VITE_PLATFORM_API_KEY env = Some k → k ≠ [] → k ≠ placeholder_key →
       ∃ url,
         (VITE_PLATFORM_API_URL env = Some url ∧ url ≠ []
          ∨ url = default_base_url
            ∧ (VITE_PLATFORM_API_URL env = None
               ∨ VITE_PLATFORM_API_URL env = Some []))
         ∧ getPlatformSDK env None
           = (Ok {| apiKey := k; baseUrl := url |},
              Some {| apiKey := k; baseUrl := url |}))
  ∧ (∀ env' c, getPlatformSDK env' (Some c) = (Ok c, Some c)).
Proof.
  split; [|split; [|split]].
  - split.
    + intros [e He]. destruct (key_cases env) as [?|(k & Hk & ? & ?)]; [done|].
      by rewrite (getPlatformSDK_usable env k) in He.
    + intros H. rewrite (getPlatformSDK_unusable env H). by eexists.
  - intros e He. destruct (key_cases env) as [H|(k & Hk & ? & ?)].
    + rewrite (getPlatformSDK_unusable env H) in *. simpl in He.
      split; [|done]. exists not_configured_message.
      split; [congruence | apply not_configured_message_names_variable].
    + by rewrite (getPlatformSDK_usable env k) in He.
  - intros k Hk Hne Hp. rewrite (getPlatformSDK_usable env k) by done.
    exists (or_default (VITE_PLATFORM_API_URL env) default_base_url).
    split; [|done].
    destruct (VITE_PLATFORM_API_URL env) as [[|c u]|]; simpl; naive_solver.
  - done.
Qed.

(** The theorem at a usable key with no URL override: the client is built
    with the fixed platform URL. *)
Lemma getPlatformSDK_first_and_later_calls_witness :
  ∃ url,
    (VITE_PLATFORM_API_URL sample_env = Some url ∧ url ≠ []
     ∨ url = default_base_url
       ∧ (VITE_PLATFORM_API_URL sample_env = None
          ∨ VITE_PLATFORM_API_URL sample_env = Some []))
    ∧ getPlatformSDK sample_env None
      = (Ok {| apiKey := lit "sk_live_1"; baseUrl := url |},
         Some {| apiKey := lit "sk_live_1"; baseUrl := url |}).
Proof.
  apply (proj1 (proj2 (proj2
           (getPlatformSDK_first_and_later_calls sample_env)))
           (lit "sk_live_1")).
  - reflexivity.
  - vm_compute; discriminate.
  - vm_compute; discriminate.
Defined.

(** *** Turns of the event loop *)

Lemma remove_task_elem t l l' : remove_task t l = Some l' → t ∈ l.
Proof.
  revert l'. induction l as [|t' l IH]; intros l'; simpl; [done|].
  case_decide as Ht; [intros _; subst; left|].
  destruct (remove_task t l) as [l0|]; simpl; [|done].
  intros _. right. by eapply IH.
Qed.

Lemma remove_task_Forall (P : Task → Prop) t l l' :
  remove_task t l = Some l' → Forall P l → Forall P l'.
Proof.
  revert l'. induction l as [|t' l IH]; intros l'; simpl; [done|].
  intros H HP. apply Forall_cons in HP as [Ht' HP].
  case_decide; [by simplify_eq|].
  destruct (remove_task t l) as [l0|]; simplify_eq/=.
  constructor; [done | by apply IH].
Qed.

Lemma filter_emit (f : Effect → bool) l e :
  length (filter f (l ++ [e])) = length (filter f l) + (if f e then 1 else 0).
Proof.
  rewrite filter_app, length_app. f_equal.
  rewrite filter_cons, filter_nil. by destruct (f e).
Qed.

(** The transcript only grows. *)
Lemma run_messages_prefix env avatar a w w' :
  run env avatar a w = Some w' → messages (st w) `prefix_of` messages (st w').
Proof.
  intros H. turn H; segments; simplify_eq/=;
    try done; by apply prefix_app_r.
Qed.

Lemma run_all_messages_prefix env avatar tr w w' :
  run_all env avatar tr w = Some w' →
  messages (st w) `prefix_of` messages (st w').
Proof.
  revert w. induction tr as [|a tr IH]; intros w; simpl.
  - by intros [= <-].
  - destruct (run env avatar a w) as [w1|] eqn:Ha; simpl; [|done].
    intros H. etrans; [by eapply run_messages_prefix | by apply IH].
Qed.

(** The session manager reference is assigned by one segment only, the one
    that follows a resolved [connect]; nothing ever clears it. *)
Lemma run_sessionManagerRef env avatar a w w' :
  run env avatar a w = Some w' →
  sessionManagerRef (st w') = sessionManagerRef (st w)
  ∨ ∃ manager, a = connect_settled manager (Ok tt)
               ∧ InitAwaitConnect manager ∈ pending w
               ∧ sessionManagerRef (st w') = Some manager.
Proof.
  intros H. turn H; segments; simplify_eq/=;
    try (by left); try (left; congruence).
  right. eexists; split_and!; [|by eapply remove_task_elem|done].
  match goal with |- context [Ok ?u] => by destruct u end.
Qed.

(** *** The event observers *)

Lemma on_avatar_status_ready event w :
  field status event = Some (lit "ready") →
  st (on_avatar_status event w)
  = st (setIsInitializing false w).
Proof.
  intros H. unfold on_avatar_status, seq.
  apply opt_strict_eq_true in H. rewrite H. by cmd.
Qed.

Lemma on_avatar_status_other event w :
  field status event ≠ Some (lit "ready") →
  st (on_avatar_status event w) = st w.
Proof.
  intros H. unfold on_avatar_status, seq.
  apply opt_strict_eq_false in H. rewrite H. by cmd.
Qed.

(** C1, as stated, fails: on the run in which the backend answers and
    [connect] resolves, with no event delivered at all, the flag is still set
    while [connect] is pending and is clear once the call has returned. *)
Lemma initializing_cleared_without_ready_event :
  (isInitializing ∘ st)
    <$> run_all sample_env sample_avatar (take 3 successful_initialize)
          initialWorld
  = Some true
  ∧ run_all sample_env sample_avatar successful_initialize initialWorld
    = Some ready_world
  ∧ isInitializing (st ready_world) = false
  ∧ forallb (negb ∘ is_event) successful_initialize = true.
Proof. by vm_compute. Qed.

(** C1 (amended).  The turn that ends a successful [initialize] (the one that
    follows a resolved [connect]) retains the session manager and leaves the
    initializing flag clear.  A status event whose status is [ready] also
    clears the flag; a status event with any other status, or none, leaves
    the whole state unchanged.  Over the whole event loop, a turn that takes
    the initializing flag from set to clear is one of these two, or the
    failure of an [initialize] call (a rejected request or body read, an
    answer that is not [ok], a rejected [connect]). *)
Theorem initializing_cleared_at_return_and_at_ready env avatar w w' :
  (∀ manager,
     run env avatar (connect_settled manager (Ok tt)) w = Some w' →
     isInitializing (st w') = false
     ∧ sessionManagerRef (st w') = Some manager)
  ∧ (∀ manager now date event,
       run env avatar (manager_emits manager avatar_status now date event) w
       = Some w' →
       (field status event = Some (lit "ready") →
        isInitializing (st w') = false)
       ∧ (field status event ≠ Some (lit "ready") → st w' = st w))
  ∧ (∀ a w0 w1,
       run env avatar a w0 = Some w1 →
       isInitializing (st w0) = true →
       isInitializing (st w1) = false →
       (∃ manager, a = connect_settled manager (Ok tt))
       ∨ (∃ manager now date event,
            a = manager_emits manager avatar_status now date event
            ∧ field status event = Some (lit "ready"))
       ∨ (∃ err, a = fetch_settled (Throw err))
       ∨ (∃ ok err, a = json_settled ok (Throw err))
       ∨ (∃ body, a = json_settled false (Ok body))
       ∨ (∃ manager err, a = connect_settled manager (Throw err))).
Proof.
  split_and!.
  - intros manager H. turn H. by cmd.
  - intros manager now date event H. turn H. simpl. split; intros Hs.
    + by rewrite on_avatar_status_ready.
    + by rewrite on_avatar_status_other.
  - intros a w0 w1 H Hset Hclear.
    turn H; segments; simplify_eq/=; try congruence;
      repeat match goal with
      | Hr : opt_strict_eq _ _ = true |- _ => apply opt_strict_eq_true in Hr
      | u : unit |- _ => destruct u
      | Hn : negb ?b = true |- _ => apply negb_true_iff in Hn; subst b
      end;
      eauto 12.
Qed.

(** The theorem on the last turn of [successful_initialize], and on a
    [connecting] status event delivered afterwards. *)
Lemma initializing_cleared_at_return_and_at_ready_witness :
  (isInitializing (st ready_world) = false
   ∧ sessionManagerRef (st ready_world) = Some 0)
  ∧ st (on_avatar_status connecting_status ready_world) = st ready_world.
Proof.
  split.
  - refine (proj1 (initializing_cleared_at_return_and_at_ready
              sample_env sample_avatar _ ready_world) 0 _).
    instantiate (1 :=
      {| st := {| messages := []; input := []; isInitializing := true;
                  isSending := false; isWaitingForResponse := false;
                  error := None; sessionManagerRef := None |};
         pending := [InitAwaitConnect 0];
         effects := take 8 (effects ready_world);
         nextManager := 1; mounted := true |}).
    reflexivity.
  - refine (proj2 (proj1 (proj2 (initializing_cleared_at_return_and_at_ready
              sample_env sample_avatar ready_world
              (on_avatar_status connecting_status ready_world)))
              0 0%Z 0%Z connecting_status _) _).
    + reflexivity.
    + vm_compute; discriminate.
Defined.

(** C9, as stated, fails: a response event whose [text] field is present and
    is the empty string yields a message whose content is the placeholder,
    not the field. *)
Lemma response_with_empty_text_gets_placeholder :
  field text empty_text_response = Some []
  ∧ content
      <$> last (messages
                  (st (dispatch avatar_response 7 8 empty_text_response
                         ready_world)))
    = Some (lit "Response received").
Proof. by vm_compute. Qed.

(** C9 (amended).  The observer of a response event appends exactly one
    message to the transcript, an assistant message whose content is the
    payload's [text] when that is present and not empty, and the placeholder
    [Response received] when it is absent or empty; the awaiting-response
    flag is false afterwards. *)
Theorem response_appends_one_assistant_message now date event w :
  (∃ m, messages (st (dispatch avatar_response now date event w))
        = messages (st w) ++ [m]
        ∧ role m = assistant
        ∧ (∀ t, field text event = Some t → t ≠ [] → content m = t)
        ∧ (field text event = None ∨ field text event = Some [] →
           content m = lit "Response received"))
  ∧ isWaitingForResponse (st (dispatch avatar_response now date event w))
    = false.
Proof.
  split; [|done]. eexists; split_and!; [done..| |].
  - simpl. intros [|c t] Ht; [done|]. by rewrite Ht.
  - simpl. by intros [-> | ->].
Qed.

(** The theorem on the payload [{text: hello}]. *)
Lemma response_appends_one_assistant_message_witness :
  ∃ m, messages (st (dispatch avatar_response 7 8 hello_response ready_world))
       = messages (st ready_world) ++ [m]
       ∧ role m = assistant ∧ content m = lit "hello".
Proof.
  destruct (proj1 (response_appends_one_assistant_message 7 8 hello_response
                     ready_world)) as (m & Hm & Hr & Hc & _).
  exists m. split_and!; [exact Hm | exact Hr |].
  apply Hc; [reflexivity | vm_compute; discriminate].
Defined.

(** C10.  The observer of an input event whose [inputType] is absent or is
    not [voice] changes nothing: the transcript and the three status flags
    are as before.  When [inputType] is [voice] it appends one user message
    and sets the awaiting-response flag, leaving the other two flags alone. *)
Theorem input_event_acts_only_on_voice now date event w :
  (field inputType event ≠ Some (lit "voice") →
   dispatch avatar_input now date event w = w
   ∧ messages (st (dispatch avatar_input now date event w)) = messages (st w)
   ∧ isInitializing (st (dispatch avatar_input now date event w))
     = isInitializing (st w)
   ∧ isSending (st (dispatch avatar_input now date event w))
     = isSending (st w)
   ∧ isWaitingForResponse (st (dispatch avatar_input now date event w))
     = isWaitingForResponse (st w))
  ∧ (field inputType event = Some (lit "voice") →
     (∃ m, role m = user
           ∧ messages (st (dispatch avatar_input now date event w))
             = messages (st w) ++ [m])
     ∧ isWaitingForResponse (st (dispatch avatar_input now date event w))
       = true
     ∧ isInitializing (st (dispatch avatar_input now date event w))
       = isInitializing (st w)
     ∧ isSending (st (dispatch avatar_input now date event w))
       = isSending (st w)).
Proof.
  simpl. unfold on_avatar_input. split; intros H.
  - apply opt_strict_eq_false in H. rewrite H. by cmd.
  - apply opt_strict_eq_true in H. rewrite H. cmd.
    split_and!; [|done..]. eexists. split; [|reflexivity]. reflexivity.
Qed.

(** The theorem on a typed input echo (nothing changes) and on a voice input
    (one user message). *)
Lemma input_event_acts_only_on_voice_witness :
  dispatch avatar_input 7 8 typed_input ready_world = ready_world
  ∧ ∃ m, role m = user
         ∧ messages (st (dispatch avatar_input 7 8 voice_input ready_world))
           = messages (st ready_world) ++ [m].
Proof.
  split.
  - apply (input_event_acts_only_on_voice 7 8 typed_input ready_world).
    vm_compute; discriminate.
  - apply (input_event_acts_only_on_voice 7 8 voice_input ready_world).
    reflexivity.
Defined.

(** *** Sending *)

(** C2, as stated, fails: when the forward call rejects, the
    awaiting-response flag, set while the call was pending, is clear after
    the turn that handles the rejection, and no event was delivered. *)
Lemma awaiting_cleared_by_forward_failure :
  (isWaitingForResponse ∘ st)
    <$> run_all sample_env sample_avatar forward_pending initialWorld
  = Some true
  ∧ (isWaitingForResponse ∘ st)
      <$> run_all sample_env sample_avatar forward_rejected initialWorld
    = Some false
  ∧ forallb (negb ∘ is_event) forward_rejected = true.
Proof. by vm_compute. Qed.

(** C2 (amended).  The turn that follows the settling of the forward call
    clears the sending flag whether the call resolved or rejected, and leaves
    the transcript alone; it leaves the awaiting-response flag alone when the
    call resolved and clears it when the call rejected.  Over the whole event
    loop, a turn that takes the awaiting-response flag from set to clear is a
    response event, an error event, or the rejection of a forward call. *)
Theorem forward_settled_flags env avatar :
  (∀ r w w',
     run env avatar (send_settled r) w = Some w' →
     isSending (st w') = false
     ∧ messages (st w') = messages (st w)
     ∧ isWaitingForResponse (st w')
       = match r with
         | Ok _ => isWaitingForResponse (st w)
         | Throw _ => false
         end)
  ∧ (∀ a w w',
       run env avatar a w = Some w' →
       isWaitingForResponse (st w) = true →
       isWaitingForResponse (st w') = false →
       (∃ manager now date event,
          a = manager_emits manager avatar_response now date event)
       ∨ (∃ manager now date event,
            a = manager_emits manager avatar_error now date event)
       ∨ (∃ err, a = send_settled (Throw err))).
Proof.
  split.
  - intros r w w' H. turn H. by destruct r; cmd.
  - intros a w w' H Hset Hclear.
    turn H; segments; simplify_eq/=; try congruence; eauto 10.
Qed.

(** The theorem on the turn that handles the rejection of the forward call
    pending in [pending_world]. *)
Lemma forward_settled_flags_witness :
  isSending (st rejected_world) = false
  ∧ isWaitingForResponse (st pending_world) = true
  ∧ isWaitingForResponse (st rejected_world) = false.
Proof.
  destruct (proj1 (forward_settled_flags sample_env sample_avatar)
              (Throw (ErrorObj (lit "offline"))) pending_world rejected_world
              eq_refl) as (Hs & _ & Hw).
  split_and!; [exact Hs | reflexivity | exact Hw].
Defined.

(** C6.  When the input text is empty or made of white space only, or when a
    send is already in flight, [sendMessage] returns at its first guard: the
    world is exactly as before, so the transcript is unchanged and no forward
    call is issued. *)
Theorem sendMessage_blank_or_in_flight now date w :
  blank (input (st w)) ∨ isSending (st w) = true →
  sendMessage now date w = w
  ∧ messages (st (sendMessage now date w)) = messages (st w)
  ∧ forwards (sendMessage now date w) = forwards w
  ∧ pending (sendMessage now date w) = pending w.
Proof.
  intros H.
  assert (sendMessage now date w = w) as ->; [|done].
  unfold sendMessage. destruct H as [H|H].
  - by rewrite (trim_blank _ H).
  - rewrite H. by rewrite orb_true_r.
Qed.

(** The theorem on the text of three spaces, with a session in place. *)
Lemma sendMessage_blank_or_in_flight_witness :
  sendMessage 5 6 (setInput (lit "   ") ready_world)
  = setInput (lit "   ") ready_world.
Proof.
  apply (sendMessage_blank_or_in_flight 5 6
           (setInput (lit "   ") ready_world)).
  left. vm_compute. repeat constructor.
Defined.

Example sendMessage_empty_text :
  sendMessage 5 6 ready_world = ready_world.
Proof. reflexivity. Qed.

(** *** Invariants of the event loop *)

Lemma run_all_invariant env avatar (P : World → Prop) :
  (∀ a w w', P w → run env avatar a w = Some w' → P w') →
  ∀ tr w w', P w → run_all env avatar tr w = Some w' → P w'.
Proof.
  intros Hstep tr. induction tr as [|a tr IH]; intros w w' HP; simpl.
  - by intros [= <-].
  - destruct (run env avatar a w) as [w1|] eqn:Ha; simpl; [|done].
    apply IH. by eapply Hstep.
Qed.

Lemma run_sending_needs_session env avatar a w w' :
  sending_needs_session w → run env avatar a w = Some w' →
  sending_needs_session w'.
Proof.
  unfold sending_needs_session. intros Hinv H.
  turn H; segments; simplify_eq/=; try done; try (intros ?; by apply Hinv);
    intros ?; congruence.
Qed.

Lemma reachable_sending_needs_session env avatar w :
  reachable env avatar w → sending_needs_session w.
Proof.
  intros [tr Htr].
  eapply (run_all_invariant env avatar sending_needs_session); [|..|exact Htr].
  - intros a w0 w1. apply run_sending_needs_session.
  - done.
Qed.

(** C7, as stated, fails: with no session manager and the non-empty text of
    three spaces, [sendMessage] returns at its first guard and raises
    nothing. *)
Lemma sendMessage_blank_text_raises_nothing :
  sessionManagerRef (st (setInput (lit "   ") initialWorld)) = None
  ∧ input (st (setInput (lit "   ") initialWorld)) ≠ []
  ∧ effects (sendMessage 5 6 (setInput (lit "   ") initialWorld)) = [].
Proof. split_and!; [reflexivity | vm_compute; discriminate | reflexivity]. Qed.

(** C7 (amended).  In every world the controller can reach in which no
    session manager is retained, [sendMessage] on a text that has a character
    other than white space raises the [Session not initialized] error toast
    and does nothing else; the transcript is unchanged and no forward call is
    issued. *)
Theorem sendMessage_without_session env avatar now date w :
  reachable env avatar w →
  sessionManagerRef (st w) = None →
  trim (input (st w)) ≠ [] →
  sendMessage now date w = emit NotInitializedError w
  ∧ messages (st (sendMessage now date w)) = messages (st w)
  ∧ forwards (sendMessage now date w) = forwards w.
Proof.
  intros Hreach Href Htext.
  assert (sendMessage now date w = emit NotInitializedError w) as ->.
  { unfold sendMessage.
    rewrite (reachable_sending_needs_session env avatar w Hreach Href).
    apply truthy_Some_nonempty in Htext. rewrite Htext, Href. done. }
  split_and!; [done..|].
  unfold forwards, emit. simpl. rewrite filter_emit. simpl. lia.
Qed.

(** The theorem on the text [hi], typed into a fresh controller. *)
Lemma sendMessage_without_session_witness :
  sendMessage 5 6 (setInput (lit "hi") initialWorld)
  = emit NotInitializedError (setInput (lit "hi") initialWorld).
Proof.
  apply (sendMessage_without_session sample_env sample_avatar 5 6
           (setInput (lit "hi") initialWorld)).
  - exists [call_setInput (lit "hi")]. reflexivity.
  - reflexivity.
  - vm_compute; discriminate.
Defined.

(** C8, as stated, fails: the guards pass on the text [ hi ] (with a space on
    either side), and the message appended last carries [hi], not the text as
    submitted. *)
Lemma sendMessage_trims_submitted_text :
  input (st (setInput (lit " hi ") ready_world)) = lit " hi "
  ∧ content
      <$> last (messages
                  (st (sendMessage 5 6 (setInput (lit " hi ") ready_world))))
    = Some (lit "hi")
  ∧ lit "hi" ≠ lit " hi ".
Proof. split_and!; [reflexivity | reflexivity | vm_compute; discriminate]. Qed.

(** C8 (amended).  When [sendMessage] passes its guards (the trimmed text is
    not empty, no send is in flight, a session manager is retained), then
    before the forward call settles the transcript has gained, as its last
    entry, a user message whose content is the submitted text with leading
    and trailing white space removed; the sending and awaiting-response flags
    are set; that content has been forwarded to the retained manager and the
    call is suspended on it.  Whatever happens afterwards, the rejection of
    the forward call included, the message stays in the transcript. *)
Theorem sendMessage_appends_optimistically env avatar now date current w :
  trim (input (st w)) ≠ [] →
  isSending (st w) = false →
  sessionManagerRef (st w) = Some current →
  let userMessage :=
    {| id := toString now; role := user; content := trim (input (st w));
       timestamp := date |} in
  messages (st (sendMessage now date w)) = messages (st w) ++ [userMessage]
  ∧ last (messages (st (sendMessage now date w))) = Some userMessage
  ∧ isSending (st (sendMessage now date w)) = true
  ∧ isWaitingForResponse (st (sendMessage now date w)) = true
  ∧ effects (sendMessage now date w)
    = effects w ++ [manager_sendMessage current (trim (input (st w)))]
  ∧ pending (sendMessage now date w) = pending w ++ [SendAwait]
  ∧ (∀ tr w2, run_all env avatar tr (sendMessage now date w) = Some w2 →
              userMessage ∈ messages (st w2))
  ∧ (∀ tr err w2,
       run_all env avatar (tr ++ [send_settled (Throw err)])
         (sendMessage now date w) = Some w2 →
       userMessage ∈ messages (st w2)).
Proof.
  intros Htext Hidle Href userMessage.
  assert (sendMessage now date w
          = (setMessages (λ prev, prev ++ [userMessage])
             >>> setInput []
             >>> setIsSending true
             >>> setIsWaitingForResponse true
             >>> emit (manager_sendMessage current (content userMessage))
             >>> suspend SendAwait) w) as Hsend.
  { unfold sendMessage. apply truthy_Some_nonempty in Htext.
    by rewrite Htext, Hidle, Href. }
  assert (∀ tr w2, run_all env avatar tr (sendMessage now date w) = Some w2 →
                   userMessage ∈ messages (st w2)) as Hkept.
  { intros tr w2 Hrun. apply run_all_messages_prefix in Hrun.
    destruct Hrun as [k ->]. rewrite Hsend. cmd.
    rewrite !elem_of_app, list_elem_of_singleton. auto. }
  split_and!; try exact Hkept; try (by rewrite Hsend).
  - rewrite Hsend. cmd. by rewrite last_snoc.
  - intros tr err w2. apply Hkept.
Qed.

(** The theorem on the text [ hi ] sent through a ready session: the message
    carries [hi] and is last in the transcript. *)
Lemma sendMessage_appends_optimistically_witness :
  last (messages (st (sendMessage 5 6 (setInput (lit " hi ") ready_world))))
  = Some {| id := lit "5"; role := user; content := lit "hi";
            timestamp := 6 |}.
Proof.
  apply (sendMessage_appends_optimistically sample_env sample_avatar 5 6 0
           (setInput (lit " hi ") ready_world)).
  - vm_compute; discriminate.
  - reflexivity.
  - reflexivity.
Defined.

(** *** Initialization *)

(** With the avatar id as shipped, [initialize] stops at its third guard even
    under a usable key; the runs below therefore use a replaced id. *)
Example shipped_avatar_id_is_rejected :
  initializeSession sample_env DEMO_AVATAR_ID initialWorld
  = emit (toast_error (lit "Avatar ID not configured")
            (Some (lit "Replace DEMO_AVATAR_ID in TwinSDKExample.tsx with your actual avatar ID")))
      initialWorld.
Proof. reflexivity. Qed.

Lemma run_never_started env avatar a w w' :
  isPlatformSDKConfigured env = false →
  never_started w → run env avatar a w = Some w' → never_started w'.
Proof.
  unfold never_started, exchanges. intros Hcfg (Href & Hpend & Hnext & Hex) H.
  turn H;
    try match goal with
    | Hr : remove_task _ (pending w) = Some _ |- _ =>
        rewrite Hpend in Hr; discriminate Hr
    end;
    segments; unfold isConfigured in *; rewrite ?Hcfg in *; simplify_eq/=;
    rewrite ?filter_emit; simpl; split_and!; try done; lia.
Qed.

Lemma reachable_never_started env avatar w :
  isPlatformSDKConfigured env = false →
  reachable env avatar w → never_started w.
Proof.
  intros Hcfg [tr Htr].
  eapply (run_all_invariant env avatar never_started); [|..|exact Htr].
  - intros a w0 w1. by apply run_never_started.
  - done.
Qed.

(** C5, as stated, fails: the key set to the empty string is present and is
    not the placeholder, yet [isPlatformSDKConfigured] answers false. *)
Lemma isPlatformSDKConfigured_empty_key :
  ¬ ((∃ k, VITE_PLATFORM_API_KEY empty_key_env = Some k
           ∧ k ≠ placeholder_key) →
     isPlatformSDKConfigured empty_key_env = true).
Proof.
  intros H. enough (isPlatformSDKConfigured empty_key_env = true) by done.
  apply H. exists []. split; [reflexivity | vm_compute; discriminate].
Qed.

(** C5 (amended).  [isPlatformSDKConfigured] answers false exactly when the
    API key is absent, empty, or the placeholder, and true exactly when it is
    present, not empty, and not the placeholder.  Under a configuration for
    which it answers false, [initialize] called in any world the controller
    can reach raises the [Platform API key not configured] error toast and
    does nothing else: no exchange with the backend is started, then or
    before. *)
Theorem unconfigured_initialize_fails_fast env avatar :
  (isPlatformSDKConfigured env = false
   ↔ VITE_PLATFORM_API_KEY env = None ∨ VITE_PLATFORM_API_KEY env = Some []
     ∨ VITE_PLATFORM_API_KEY env = Some placeholder_key)
  ∧ (isPlatformSDKConfigured env = true
     ↔ ∃ k, VITE_PLATFORM_API_KEY env = Some k ∧ k ≠ []
            ∧ k ≠ placeholder_key)
  ∧ (isPlatformSDKConfigured env = false →
     ∀ w, reachable env avatar w →
          initializeSession env avatar w = emit ConfigurationError_apiKey w
          ∧ exchanges (initializeSession env avatar w) = 0).
Proof.
  split_and!.
  - apply isPlatformSDKConfigured_false.
  - apply isPlatformSDKConfigured_true.
  - intros Hcfg w Hreach.
    destruct (reachable_never_started env avatar w Hcfg Hreach)
      as (Href & _ & _ & Hex).
    assert (initializeSession env avatar w = emit ConfigurationError_apiKey w)
      as ->.
    { unfold initializeSession, isConfigured. by rewrite Href, Hcfg. }
    split; [done|]. unfold exchanges in *. unfold emit. simpl.
    rewrite filter_emit, Hex. done.
Qed.

(** The theorem under the placeholder key, on a controller whose user has
    typed some text and then asks for a session. *)
Lemma unconfigured_initialize_fails_fast_witness :
  initializeSession
    {| VITE_PLATFORM_API_KEY := Some placeholder_key;
       VITE_PLATFORM_API_URL := None |}
    sample_avatar (setInput (lit "hi") initialWorld)
  = emit ConfigurationError_apiKey (setInput (lit "hi") initialWorld)
  ∧ exchanges
      (initializeSession
         {| VITE_PLATFORM_API_KEY := Some placeholder_key;
            VITE_PLATFORM_API_URL := None |}
         sample_avatar (setInput (lit "hi") initialWorld)) = 0.
Proof.
  apply (proj2 (proj2 (unconfigured_initialize_fails_fast
           {| VITE_PLATFORM_API_KEY := Some placeholder_key;
              VITE_PLATFORM_API_URL := None |} sample_avatar))).
  - reflexivity.
  - exists [call_setInput (lit "hi")]. reflexivity.
Defined.

Lemma run_session_settled env avatar a w w' :
  session_settled w → run env avatar a w = Some w' →
  session_settled w'
  ∧ exchanges w' = exchanges w
  ∧ constructions w' = constructions w
  ∧ sessionManagerRef (st w') = sessionManagerRef (st w).
Proof.
  unfold session_settled, exchanges, constructions.
  intros [[current Href] Hpend] H.
  turn H;
    try match goal with
    | Hr : remove_task ?t (pending w) = Some _ |- _ =>
        pose proof (remove_task_elem _ _ _ Hr) as Hin;
        pose proof (remove_task_Forall _ _ _ _ Hr Hpend) as Hpend';
        rewrite Forall_forall in Hpend; specialize (Hpend _ Hin);
        try discriminate Hpend
    end;
    segments; simplify_eq/=; rewrite ?filter_emit; simpl;
    rewrite ?Nat.add_0_r;
    split_and!; try done; try (by eexists); try congruence.
  all: by apply Forall_app_2; [|repeat constructor].
Qed.

Lemma run_all_session_settled env avatar tr w w' :
  session_settled w → run_all env avatar tr w = Some w' →
  session_settled w'
  ∧ exchanges w' = exchanges w
  ∧ constructions w' = constructions w
  ∧ sessionManagerRef (st w') = sessionManagerRef (st w).
Proof.
  revert w. induction tr as [|a tr IH]; intros w Hw; simpl.
  - by intros [= <-].
  - destruct (run env avatar a w) as [w1|] eqn:Ha; simpl; [|done].
    intros Hrun.
    destruct (run_session_settled env avatar a w w1 Hw Ha)
      as (Hw1 & He & Hc & Hr).
    rewrite <-He, <-Hc, <-Hr. by apply IH.
Qed.

(** C3, as stated, fails: when [connect] rejects, no session manager is
    retained, and a second [initialize] (no teardown in between: the
    controller is still mounted) repeats the exchange with the backend and
    constructs a second session manager. *)
Lemma failed_initialize_is_repeated :
  exchanges
    <$> run_all sample_env sample_avatar failed_then_retried initialWorld
  = Some 2
  ∧ constructions
      <$> run_all sample_env sample_avatar failed_then_retried initialWorld
    = Some 2
  ∧ mounted
      <$> run_all sample_env sample_avatar failed_then_retried initialWorld
    = Some true.
Proof. by vm_compute. Qed.

(** C3 (amended).  Whenever a session manager is retained, [initialize] is a
    no-op with an informational signal: it raises the [Session already
    initialized] toast and does nothing else.  If moreover no [initialize]
    call is suspended, then for the rest of the controller's lifetime no
    further exchange with the backend is started, no further session manager
    is constructed, and the retained one stays. *)
Theorem initialize_after_success_is_noop env avatar w :
  is_Some (sessionManagerRef (st w)) →
  initializeSession env avatar w = emit already_initialized w
  ∧ exchanges (initializeSession env avatar w) = exchanges w
  ∧ constructions (initializeSession env avatar w) = constructions w
  ∧ (Forall (λ t, t = SendAwait) (pending w) →
     ∀ tr w', run_all env avatar tr w = Some w' →
              exchanges w' = exchanges w
              ∧ constructions w' = constructions w
              ∧ sessionManagerRef (st w') = sessionManagerRef (st w)).
Proof.
  intros [current Href].
  assert (initializeSession env avatar w = emit already_initialized w) as ->.
  { unfold initializeSession. by rewrite Href. }
  split_and!; [done| | |].
  - unfold exchanges, emit. simpl. rewrite filter_emit. simpl. lia.
  - unfold constructions, emit. simpl. rewrite filter_emit. simpl. lia.
  - intros Hpend tr w' Hrun.
    eapply run_all_session_settled in Hrun; [|split; [by eexists | done]].
    tauto.
Qed.

(** The theorem after [successful_initialize]: two more [initialize] calls
    around a message being sent start no further exchange with the backend
    and construct no further session manager. *)
Lemma initialize_after_success_is_noop_witness :
  initializeSession sample_env sample_avatar ready_world
  = emit already_initialized ready_world
  ∧ exchanges busy_world = exchanges ready_world
  ∧ constructions busy_world = constructions ready_world.
Proof.
  destruct (initialize_after_success_is_noop sample_env sample_avatar
              ready_world) as (Hnoop & _ & _ & Hrest).
  - by exists 0.
  - destruct (Hrest (Forall_nil_2 _) more_initialize_calls busy_world eq_refl)
      as (He & Hc & _).
    split_and!; [exact Hnoop | exact He | exact Hc].
Defined.

(** ** Further properties of the code *)

(** *** [trim] and [toString] *)

Lemma trimStart_starts_clean s : starts_clean (trimStart s).
Proof.
  induction s as [|c s IH]; simpl; [done|].
  destruct (isWhiteSpace c) eqn:Hc; [done|]. simpl. done.
Qed.

Lemma trimStart_clean s : starts_clean s → trimStart s = s.
Proof. destruct s as [|c s]; simpl; [done|]. by intros ->. Qed.

Lemma trimStart_suffix s : trimStart s `suffix_of` s.
Proof.
  induction s as [|c s IH]; simpl; [done|].
  destruct (isWhiteSpace c); [by apply suffix_cons_r | done].
Qed.

Lemma trimStart_nil_blank s : trimStart s = [] → blank s.
Proof.
  induction s as [|c s IH]; simpl; [constructor|].
  destruct (isWhiteSpace c) eqn:Hc; [|done].
  intros H. constructor; [done | by apply IH].
Qed.

Lemma trimEnd_prefix s : trimEnd s `prefix_of` s.
Proof.
  unfold trimEnd. destruct (trimStart_suffix (reverse s)) as [k Hk].
  exists (reverse k). apply (inj reverse).
  by rewrite reverse_app, !reverse_involutive.
Qed.

Lemma prefix_starts_clean s t :
  s `prefix_of` t → starts_clean t → starts_clean s.
Proof. intros [k ->]. by destruct s. Qed.

Lemma trim_starts_clean s : starts_clean (trim s).
Proof.
  unfold trim. eapply prefix_starts_clean; [apply trimEnd_prefix|].
  apply trimStart_starts_clean.
Qed.

Lemma trim_ends_clean s : starts_clean (reverse (trim s)).
Proof.
  unfold trim, trimEnd. rewrite reverse_involutive.
  apply trimStart_starts_clean.
Qed.

Lemma trim_idempotent s : trim (trim s) = trim s.
Proof.
  unfold trim at 1. rewrite (trimStart_clean _ (trim_starts_clean s)).
  unfold trimEnd. rewrite (trimStart_clean _ (trim_ends_clean s)).
  by rewrite reverse_involutive.
Qed.

Lemma blank_reverse s : blank (reverse s) → blank s.
Proof.
  unfold blank. rewrite !Forall_forall. intros H c Hc. apply H.
  by apply elem_of_reverse.
Qed.

Lemma blank_clean_nil s : blank s → starts_clean s → s = [].
Proof.
  destruct s as [|c s]; [done|]. intros H Hc. simpl in Hc.
  apply Forall_cons in H as [H _]. congruence.
Qed.

Lemma trim_nil_iff_blank s : trim s = [] ↔ blank s.
Proof.
  split; [|apply trim_blank].
  unfold trim, trimEnd. intros H.
  apply (f_equal reverse) in H. rewrite reverse_involutive in H. simpl in H.
  apply trimStart_nil_blank, blank_reverse in H.
  apply trimStart_nil_blank.
  by apply blank_clean_nil; [|apply trimStart_starts_clean].
Qed.

Lemma uint_units_digits d c : c ∈ uint_units d → (48 ≤ c ≤ 57)%N.
Proof.
  induction d; simpl; rewrite ?elem_of_cons; try (by intros ?%elem_of_nil);
    intros [->|?]; auto; lia.
Qed.

Lemma uint_units_inj d1 d2 : uint_units d1 = uint_units d2 → d1 = d2.
Proof.
  revert d2. induction d1; intros []; simpl; intros [=]; f_equal; auto.
Qed.

Lemma toString_inj a b : toString a = toString b → a = b.
Proof.
  unfold toString. intros H. apply DecimalZ.to_int_inj.
  destruct (Z.to_int a) as [d1|d1], (Z.to_int b) as [d2|d2].
  - f_equal. by apply uint_units_inj.
  - assert (45%N ∈ uint_units d1) as Hin by (rewrite H; left).
    apply uint_units_digits in Hin. lia.
  - assert (45%N ∈ uint_units d2) as Hin by (rewrite <-H; left).
    apply uint_units_digits in Hin. lia.
  - injection H as H. f_equal. by apply uint_units_inj.
Qed.

(** *** The client singleton, continued *)

Lemma getPlatformSDK_calls_cached envs c :
  getPlatformSDK_calls envs (Some c) = (replicate (length envs) (Ok c), Some c).
Proof. induction envs as [|env envs IH]; simpl; [done|]. by rewrite IH. Qed.

Lemma getPlatformSDK_first_cases env :
  getPlatformSDK env None = (Throw (ErrorObj not_configured_message), None)
  ∨ ∃ c, getPlatformSDK env None = (Ok c, Some c).
Proof.
  destruct (key_cases env) as [H|(k & Hk & ? & ?)].
  - left. by apply getPlatformSDK_unusable.
  - right. eexists. by apply getPlatformSDK_usable.
Qed.

(** X1.  [isPlatformSDKConfigured] predicts [getPlatformSDK]: with nothing
    cached, the call returns a client exactly when the predicate answers
    true, and throws exactly when it answers false. *)
Theorem isPlatformSDKConfigured_predicts_getPlatformSDK env :
  ((∃ c, (getPlatformSDK env None).1 = Ok c)
   ↔ isPlatformSDKConfigured env = true)
  ∧ ((∃ e, (getPlatformSDK env None).1 = Throw e)
     ↔ isPlatformSDKConfigured env = false).
Proof.
  rewrite isPlatformSDKConfigured_true, isPlatformSDKConfigured_false.
  destruct (key_cases env) as [H|(k & Hk & Hne & Hp)].
  - rewrite (getPlatformSDK_unusable env H). simpl. split.
    + split; [by intros [c ?]|]. intros (k & Hk & ? & ?).
      destruct H as [H|[H|H]]; rewrite H in Hk; naive_solver.
    + split; [done | by eexists].
  - rewrite (getPlatformSDK_usable env k Hk Hne Hp). simpl. split.
    + split; [by exists k | by eexists].
    + split; [by intros [e ?]|].
      intros [H|[H|H]]; rewrite H in Hk; naive_solver.
Qed.

(** X2.  Over any sequence of calls, starting with nothing cached and under
    configurations that may differ from call to call, all the clients
    returned are one and the same, and it is the one left in the cache. *)
Theorem getPlatformSDK_calls_return_one_client envs c1 c2 :
  Ok c1 ∈ (getPlatformSDK_calls envs None).1 →
  Ok c2 ∈ (getPlatformSDK_calls envs None).1 →
  c1 = c2 ∧ (getPlatformSDK_calls envs None).2 = Some c1.
Proof.
  induction envs as [|env envs IH]; [by intros ?%elem_of_nil|].
  cbn [getPlatformSDK_calls].
  destruct (getPlatformSDK_first_cases env) as [->|[c ->]]; cbn [fst snd].
  - rewrite !elem_of_cons. intros [?|H1] [?|H2]; try done. by apply IH.
  - rewrite getPlatformSDK_calls_cached. simpl.
    rewrite !elem_of_cons, !elem_of_replicate.
    intros [H1|[H1 _]] [H2|[H2 _]]; by simplify_eq.
Qed.

(** The theorem on three calls: without a key, with one key, with another. *)
Lemma getPlatformSDK_calls_return_one_client_witness :
  (getPlatformSDK_calls [no_key_env; sample_env; other_env] None).1
  = [Throw (ErrorObj not_configured_message); Ok sample_client;
     Ok sample_client]
  ∧ (getPlatformSDK_calls [no_key_env; sample_env; other_env] None).2
    = Some sample_client.
Proof.
  split; [reflexivity|].
  apply (getPlatformSDK_calls_return_one_client
           [no_key_env; sample_env; other_env] sample_client sample_client).
  - right; left.
  - right; right; left.
Defined.

(** X3.  A client that [getPlatformSDK] constructs carries the configured
    key, which is neither empty nor the placeholder, and a base URL that is
    not empty; it is the client left in the cache. *)
Theorem getPlatformSDK_constructs_usable_client env c :
  (getPlatformSDK env None).1 = Ok c →
  VITE_PLATFORM_API_KEY env = Some (apiKey c)
  ∧ apiKey c ≠ [] ∧ apiKey c ≠ placeholder_key
  ∧ baseUrl c ≠ []
  ∧ (getPlatformSDK env None).2 = Some c.
Proof.
  destruct (key_cases env) as [H|(k & Hk & Hne & Hp)].
  - by rewrite (getPlatformSDK_unusable env H).
  - rewrite (getPlatformSDK_usable env k Hk Hne Hp). simpl. intros [= <-].
    simpl. split_and!; try done.
    by destruct (VITE_PLATFORM_API_URL env) as [[|u us]|].
Qed.

(** The theorem under a configuration with a URL override. *)
Lemma getPlatformSDK_constructs_usable_client_witness :
  VITE_PLATFORM_API_KEY other_env = Some (lit "sk_live_2")
  ∧ lit "sk_live_2" ≠ [] ∧ lit "sk_live_2" ≠ placeholder_key
  ∧ lit "https://staging.example" ≠ []
  ∧ (getPlatformSDK other_env None).2
    = Some {| apiKey := lit "sk_live_2";
              baseUrl := lit "https://staging.example" |}.
Proof.
  apply (getPlatformSDK_constructs_usable_client other_env
           {| apiKey := lit "sk_live_2";
              baseUrl := lit "https://staging.example" |}).
  reflexivity.
Defined.

(** *** Growth of the world over a turn *)

Lemma remove_task_perm t l l' : remove_task t l = Some l' → l ≡ₚ t :: l'.
Proof.
  revert l'. induction l as [|t' l IH]; intros l'; simpl; [done|].
  case_decide as Ht; [by intros [= <-]; subst|].
  destruct (remove_task t l) as [l0|]; simpl; [|done].
  intros [= <-]. rewrite (IH l0 eq_refl). apply Permutation_swap.
Qed.

Lemma run_effects_prefix env avatar a w w' :
  run env avatar a w = Some w' → effects w `prefix_of` effects w'.
Proof.
  intros H. turn H; segments; simplify_eq/=; rewrite <-?(assoc_L (++));
    try done; by apply prefix_app_r.
Qed.

Lemma run_nextManager_mono env avatar a w w' :
  run env avatar a w = Some w' → nextManager w ≤ nextManager w'.
Proof. intros H. turn H; segments; simplify_eq/=; lia. Qed.

(** *** One forward call at a time *)

Lemma forwards_in_flight_perm l l' :
  l ≡ₚ l' →
  length (filter (λ t, t = SendAwait) l)
  = length (filter (λ t, t = SendAwait) l').
Proof. intros H. by rewrite H. Qed.

Lemma run_sending_tracks_forward env avatar a w w' :
  sending_tracks_forward w → run env avatar a w = Some w' →
  sending_tracks_forward w'.
Proof.
  unfold sending_tracks_forward, forwards_in_flight. intros [Hn Hs] H.
  turn H;
    try match goal with
    | Hr : remove_task _ (pending w) = Some _ |- _ =>
        apply remove_task_perm, forwards_in_flight_perm in Hr;
        rewrite Hr, filter_cons in Hn; simpl in Hn
    end;
    segments; simplify_eq/=;
    rewrite ?filter_app, ?length_app, ?filter_cons, ?filter_nil; simpl;
    repeat case_decide; simplify_eq/=; split; try done; try lia;
    try (intros _; by eexists).
Qed.

Lemma reachable_sending_tracks_forward env avatar w :
  reachable env avatar w → sending_tracks_forward w.
Proof.
  intros [tr Htr].
  eapply (run_all_invariant env avatar sending_tracks_forward);
    [|..|exact Htr].
  - intros a w0 w1. apply run_sending_tracks_forward.
  - done.
Qed.

Lemma elem_of_filter_eq_length (t : Task) l :
  t ∈ l ↔ 0 < length (filter (λ x, x = t) l).
Proof.
  induction l as [|x l IH]; simpl.
  - rewrite elem_of_nil. simpl. lia.
  - rewrite elem_of_cons, filter_cons. case_decide; simpl.
    + split; [lia | by left].
    + rewrite IH. split; [intros [?|?]; [congruence | done] | by right].
Qed.

(** X4.  At most one forward call is suspended at any time in the
    controller's life, and the sending flag is set exactly while one is; a
    session manager is retained whenever one is. *)
Theorem one_forward_in_flight env avatar w :
  reachable env avatar w →
  forwards_in_flight w ≤ 1
  ∧ (isSending (st w) = true ↔ SendAwait ∈ pending w)
  ∧ (SendAwait ∈ pending w → is_Some (sessionManagerRef (st w))).
Proof.
  intros Hreach.
  destruct (reachable_sending_tracks_forward env avatar w Hreach) as [Hn Hs].
  unfold forwards_in_flight in *. rewrite elem_of_filter_eq_length.
  destruct (isSending (st w)); rewrite Hn; split_and!; try lia;
    try (split; intros; try done; lia); intros; try lia. by apply Hs.
Qed.

(** The theorem on the world in which the text [hi] has been sent and the
    forward call has not settled. *)
Lemma one_forward_in_flight_witness :
  forwards_in_flight pending_world ≤ 1
  ∧ (isSending (st pending_world) = true ↔ SendAwait ∈ pending pending_world)
  ∧ (SendAwait ∈ pending pending_world →
     is_Some (sessionManagerRef (st pending_world))).
Proof.
  apply (one_forward_in_flight sample_env sample_avatar pending_world).
  exists forward_pending. reflexivity.
Defined.

(** *** The initializing flag *)

Lemma run_initializing_has_call env avatar a w w' :
  initializing_has_call w → run env avatar a w = Some w' →
  initializing_has_call w'.
Proof.
  unfold initializing_has_call. intros Hinv H.
  turn H;
    try match goal with
    | Hr : remove_task _ (pending w) = Some _ |- _ =>
        apply remove_task_perm in Hr; setoid_rewrite Hr in Hinv
    end;
    segments; simplify_eq/=; try done;
    try (intros Hi; destruct (Hinv Hi) as (t & Ht & Hit);
         exists t; split; [|done];
         rewrite ?elem_of_app, ?elem_of_cons in *; naive_solver);
    try (intros _; eexists; split; [apply elem_of_app; right; left | done]).
Qed.

(** X5.  The initializing flag is set only while an [initialize] call is
    suspended at one of its awaits: once every such call has settled, the
    flag is clear. *)
Theorem initializing_only_while_suspended env avatar w :
  reachable env avatar w →
  isInitializing (st w) = true →
  ∃ t, t ∈ pending w ∧ is_init_task t = true.
Proof.
  intros [tr Htr].
  eapply (run_all_invariant env avatar initializing_has_call);
    [|..|exact Htr].
  - intros a w0 w1. apply run_initializing_has_call.
  - done.
Qed.

(** The theorem on the world in which [initialize] awaits the backend. *)
Lemma initializing_only_while_suspended_witness :
  ∃ t, t ∈ pending (initializeSession sample_env sample_avatar initialWorld)
       ∧ is_init_task t = true.
Proof.
  apply (initializing_only_while_suspended sample_env sample_avatar
           (initializeSession sample_env sample_avatar initialWorld)).
  - exists [call_initializeSession]. reflexivity.
  - reflexivity.
Defined.

(** *** Session managers *)

Lemma prepared_mono m next next' l l' :
  prepared m next l → next ≤ next' → l ⊆ l' → prepared m next' l'.
Proof.
  intros (Hm & [d Hd] & Hon & Hc) Hn Hl. split_and!.
  - lia.
  - exists d. by apply Hl.
  - intros kind Hk. by apply Hl, Hon.
  - by apply Hl.
Qed.

Lemma run_managers_prepared env avatar a w w' :
  managers_prepared w → run env avatar a w = Some w' → managers_prepared w'.
Proof.
  intros (Href & Hpend & Hfwd) H.
  assert (∀ m, prepared m (nextManager w) (effects w) →
               prepared m (nextManager w') (effects w')) as Hmono.
  { intros m Hm. eapply prepared_mono; [done|..].
    - by eapply run_nextManager_mono.
    - apply run_effects_prefix in H as [k ->]. set_solver. }
  unfold managers_prepared.
  turn H;
    try match goal with
    | Hr : remove_task _ (pending w) = Some _ |- _ =>
        apply remove_task_perm in Hr; setoid_rewrite Hr in Hpend
    end;
    segments; simplify_eq/=.
  all: split_and!; intros;
    repeat match goal with
    | Hin : _ ∈ _ ++ _ |- _ => apply elem_of_app in Hin as [Hin|Hin]
    | Hin : _ ∈ [_] |- _ => apply list_elem_of_singleton in Hin
    | Hin : _ ∈ [] |- _ => by apply elem_of_nil in Hin
    end; simplify_eq;
    try (apply Hmono; eauto; (apply Hpend; set_solver)).
  unfold prepared, listened. split_and!.
  - lia.
  - match goal with
    | |- context [new_AvatarSessionManager _ ?d] => exists d
    end. set_solver.
  - intros kind Hk. set_solver.
  - set_solver.
Qed.

Lemma reachable_managers_prepared env avatar w :
  reachable env avatar w → managers_prepared w.
Proof.
  intros [tr Htr].
  eapply (run_all_invariant env avatar managers_prepared); [|..|exact Htr].
  - intros a w0 w1. apply run_managers_prepared.
  - split_and!; [done | by intros ? ?%elem_of_nil
                 | by intros ? ? ?%elem_of_nil].
Qed.

(** X6.  In every world the controller can reach, the session manager it
    retains, and every manager a forward call was sent to, has been
    constructed, has had the four observers ([avatar.status], [avatar.input],
    [avatar.response], [avatar.error]) registered on it, and has been asked
    to connect. *)
Theorem retained_manager_is_prepared env avatar w m :
  reachable env avatar w →
  sessionManagerRef (st w) = Some m ∨ (∃ t, manager_sendMessage m t ∈ effects w) →
  (∃ sessionData, new_AvatarSessionManager m sessionData ∈ effects w)
  ∧ (∀ kind, kind ∈ listened → manager_on m kind ∈ effects w)
  ∧ manager_connect m ∈ effects w.
Proof.
  intros Hreach Hm.
  destruct (reachable_managers_prepared env avatar w Hreach)
    as (Href & _ & Hfwd).
  assert (prepared m (nextManager w) (effects w)) as (_ & ? & ? & ?);
    [|done].
  destruct Hm as [Hm|[t Ht]]; [by apply Href | by eapply Hfwd].
Qed.

(** The theorem on the world after a successful [initialize]. *)
Lemma retained_manager_is_prepared_witness :
  (∃ sessionData, new_AvatarSessionManager 0 sessionData ∈ effects ready_world)
  ∧ (∀ kind, kind ∈ listened → manager_on 0 kind ∈ effects ready_world)
  ∧ manager_connect 0 ∈ effects ready_world.
Proof.
  apply (retained_manager_is_prepared sample_env sample_avatar ready_world 0).
  - exists successful_initialize. reflexivity.
  - left. reflexivity.
Defined.


Lemma observers_first_snoc l e :
  observers_first l →
  (∀ m, e = manager_connect m →
        ∀ kind, kind ∈ listened → manager_on m kind ∈ l) →
  observers_first (l ++ [e]).
Proof.
  intros Hl He pre post m kind Heq Hk.
  destruct post as [|x post _] using rev_ind.
  - apply app_inj_tail in Heq as [-> ->]. by eapply He.
  - change (manager_connect m :: post ++ [x])
      with ((manager_connect m :: post) ++ [x]) in Heq.
    rewrite (assoc_L (++)) in Heq. apply app_inj_tail in Heq as [-> _].
    by eapply Hl.
Qed.

Lemma run_observers_first env avatar a w w' :
  observers_first (effects w) → run env avatar a w = Some w' →
  observers_first (effects w').
Proof.
  intros Hinv H. turn H; segments; simplify_eq/=; try done;
    repeat (apply observers_first_snoc; [|try (by intros ? [=])]);
    try done.
  intros m [= <-] kind Hk. unfold listened in Hk. set_solver.
Qed.

(** X7.  In the log of every world the controller can reach, each [connect]
    request is preceded by the registration of the four observers on the
    same manager: no event of a connected session can arrive before its
    observer is in place. *)
Theorem observers_registered_before_connect env avatar w :
  reachable env avatar w →
  ∀ pre post m kind,
    effects w = pre ++ manager_connect m :: post →
    kind ∈ listened → manager_on m kind ∈ pre.
Proof.
  intros [tr Htr].
  eapply (run_all_invariant env avatar (λ w, observers_first (effects w)));
    [|..|exact Htr].
  - intros a w0 w1. apply run_observers_first.
  - intros pre post m kind Heq. by destruct pre.
Qed.

(** The theorem on the log of [ready_world], cut at its [connect] request. *)
Lemma observers_registered_before_connect_witness :
  manager_on 0 avatar_error ∈ take 7 (effects ready_world).
Proof.
  apply (observers_registered_before_connect sample_env sample_avatar
           ready_world) with (post := drop 8 (effects ready_world)).
  - exists successful_initialize. reflexivity.
  - reflexivity.
  - unfold listened. do 3 right. left.
Defined.

(** *** What is forwarded *)

Lemma run_forwards_in_transcript env avatar a w w' :
  forwards_in_transcript w → run env avatar a w = Some w' →
  forwards_in_transcript w'.
Proof.
  intros Hinv H.
  assert (∀ m t, manager_sendMessage m t ∈ effects w →
            t ≠ [] ∧ trim t = t
            ∧ ∃ msg, msg ∈ messages (st w') ∧ role msg = user
                     ∧ content msg = t) as Hold.
  { intros m t Hin. destruct (Hinv m t Hin) as (? & ? & msg & Hmsg & ? & ?).
    split_and!; [done..|]. exists msg. split_and!; [|done..].
    apply run_messages_prefix in H as [k ->]. set_solver. }
  unfold forwards_in_transcript in *.
  turn H; segments; simplify_eq/=; intros m t Hin;
    repeat match goal with
    | Hin : _ ∈ _ ++ _ |- _ => apply elem_of_app in Hin as [Hin|Hin]
    | Hin : _ ∈ [_] |- _ => apply list_elem_of_singleton in Hin
    end; simplify_eq; try (by eapply Hold).
  split_and!.
  - match goal with
    | Hg : negb match trim ?s with [] => _ | _ => _ end || _ = false |- _ =>
        destruct (trim s); [discriminate Hg | done]
    end.
  - apply trim_idempotent.
  - eexists. split; [apply elem_of_app; right; left|]. done.
Qed.

(** X8.  Every text the controller has forwarded to a session manager is not
    empty, has no white space at either end, and is the content of a user
    message that is in the transcript. *)
Theorem forwarded_texts_are_trimmed_messages env avatar w m t :
  reachable env avatar w →
  manager_sendMessage m t ∈ effects w →
  t ≠ [] ∧ starts_clean t ∧ starts_clean (reverse t)
  ∧ ∃ msg, msg ∈ messages (st w) ∧ role msg = user ∧ content msg = t.
Proof.
  intros [tr Htr] Hin.
  assert (forwards_in_transcript w) as Hinv.
  { eapply (run_all_invariant env avatar forwards_in_transcript);
      [|..|exact Htr].
    - intros a w0 w1. apply run_forwards_in_transcript.
    - by intros ? ? ?%elem_of_nil. }
  destruct (Hinv m t Hin) as (Hne & Htrim & Hmsg).
  split_and!; [done| | |done]; rewrite <-Htrim.
  - apply trim_starts_clean.
  - apply trim_ends_clean.
Qed.

(** The theorem on the text [hi] forwarded in [pending_world]. *)
Lemma forwarded_texts_are_trimmed_messages_witness :
  lit "hi" ≠ [] ∧ starts_clean (lit "hi") ∧ starts_clean (reverse (lit "hi"))
  ∧ ∃ msg, msg ∈ messages (st pending_world) ∧ role msg = user
           ∧ content msg = lit "hi".
Proof.
  apply (forwarded_texts_are_trimmed_messages sample_env sample_avatar
           pending_world 0 (lit "hi")).
  - exists forward_pending. reflexivity.
  - vm_compute. do 9 right. left.
Defined.

(** *** Teardown *)

Lemma run_disconnect_at_unmount env avatar a w w' :
  disconnect_at_unmount w → run env avatar a w = Some w' →
  disconnect_at_unmount w'.
Proof.
  unfold disconnect_at_unmount. intros Hinv H.
  turn H; segments; simplify_eq/=; try done;
    intros _; rewrite ?filter_app, ?Hinv by done; done.
Qed.

(** X9.  While the component is mounted no [disconnect] is ever requested.
    The unmount cleanup, which can always run then, requests exactly one
    [disconnect], on the manager retained at that moment, or none if no
    manager is retained then: a manager that has been constructed but is
    not retained when the component unmounts is not disconnected by the
    cleanup. *)
Theorem disconnect_only_at_unmount env avatar w :
  reachable env avatar w →
  mounted w = true →
  filter is_disconnect (effects w) = []
  ∧ run env avatar unmount w = Some (unmount_cleanup w)
  ∧ filter is_disconnect (effects (unmount_cleanup w))
    = match sessionManagerRef (st w) with
      | Some current => [manager_disconnect current]
      | None => []
      end.
Proof.
  intros [tr Htr] Hm.
  assert (filter is_disconnect (effects w) = []) as Hnone.
  { eapply (run_all_invariant env avatar disconnect_at_unmount);
      [|..|exact Htr|exact Hm].
    - intros a w0 w1. apply run_disconnect_at_unmount.
    - done. }
  split_and!; [done| |].
  - unfold run. by rewrite Hm.
  - unfold unmount_cleanup.
    destruct (sessionManagerRef (st w)) as [current|]; simpl; [|done].
    unfold emit. simpl. by rewrite filter_app, Hnone.
Qed.

(** The theorem on a session that is unmounted while a forward call is
    pending. *)
Lemma disconnect_only_at_unmount_witness :
  filter is_disconnect (effects pending_world) = []
  ∧ run sample_env sample_avatar unmount pending_world
    = Some (unmount_cleanup pending_world)
  ∧ filter is_disconnect (effects (unmount_cleanup pending_world))
    = [manager_disconnect 0].
Proof.
  apply (disconnect_only_at_unmount sample_env sample_avatar pending_world).
  - exists forward_pending. vm_compute. reflexivity.
  - reflexivity.
Defined.

(** *** Failure of [initialize] *)

(** X10.  Whichever way an [initialize] call fails (the request or the
    reading of its body rejects, the backend answers with a status that is
    not [ok], [connect] rejects), the turn that handles the failure clears
    the initializing flag, retains the failure's message as the error
    string and raises it in an [Initialization failed] toast; for a
    backend refusal the message is the body's [error] field when that is
    present and not empty.  The turn leaves the transcript, the retained
    manager and the other flags as they were, reaches neither the backend
    nor a manager, and suspends nothing. *)
Theorem initialize_failure_is_surfaced env avatar a w w' msg :
  run env avatar a w = Some w' →
  initialize_failure a = Some msg →
  isInitializing (st w') = false
  ∧ error (st w') = Some msg
  ∧ effects w'
    = effects w
      ++ [console_error (lit "Failed to initialize session:")
            (CThrown match a with
                     | json_settled false (Ok _) => ErrorObj msg
                     | fetch_settled (Throw err)
                     | json_settled _ (Throw err)
                     | connect_settled _ (Throw err) => err
                     | _ => NonError
                     end);
          toast_error (lit "Initialization failed") (Some msg)]
  ∧ messages (st w') = messages (st w)
  ∧ sessionManagerRef (st w') = sessionManagerRef (st w)
  ∧ isSending (st w') = isSending (st w)
  ∧ isWaitingForResponse (st w') = isWaitingForResponse (st w)
  ∧ length (pending w') < length (pending w)
  ∧ nextManager w' = nextManager w.
Proof.
  intros H Hfail.
  assert (∀ t l, pending w ≡ₚ t :: l → length l < length (pending w)) as Hlen.
  { intros t l ->. simpl. lia. }
  turn H; try discriminate Hfail;
    match goal with
    | Hr : remove_task _ (pending w) = Some _ |- _ =>
        apply remove_task_perm, Hlen in Hr
    end;
    unfold initialize_failure in Hfail;
    segments; simplify_eq/=; rewrite <-?(assoc_L (++)); done.
Qed.

(** The theorem on a backend refusal that carries a message. *)
Lemma initialize_failure_is_surfaced_witness :
  isInitializing (st refused_world) = false
  ∧ error (st refused_world) = Some (lit "quota exceeded").
Proof.
  destruct (initialize_failure_is_surfaced sample_env sample_avatar
              (json_settled false (Ok refused_body))
              awaiting_refusal_world refused_world (lit "quota exceeded"))
    as (Hi & He & _).
  - vm_compute. reflexivity.
  - reflexivity.
  - split; [exact Hi | exact He].
Defined.

(** *** Interleaving of events with the forward call *)

(** X11.  The resolution of the forward call commutes with the delivery of
    any event: the event loop reaches the same world whichever of the two it
    takes first.  For a response event this also holds when the forward call
    rejects. *)
Theorem forward_settling_commutes_with_events env avatar manager now date
    event w :
  (∀ kind,
     run_all env avatar
       [manager_emits manager kind now date event; send_settled (Ok tt)] w
     = run_all env avatar
         [send_settled (Ok tt); manager_emits manager kind now date event] w)
  ∧ (∀ r,
       run_all env avatar
         [manager_emits manager avatar_response now date event;
          send_settled r] w
       = run_all env avatar
           [send_settled r;
            manager_emits manager avatar_response now date event] w).
Proof.
  destruct w as [s p e n mo]. split.
  - intros kind. simpl. unfold run, resume. simpl.
    destruct mo; simpl; [|done].
    destruct (remove_task SendAwait p) as [l|] eqn:Hl; simpl;
      case_decide; simpl; try done;
      destruct kind; simpl; cmd_unfold; repeat case_match; simpl in *;
      simplify_eq/=; rewrite ?Hl; simpl; try done;
      repeat case_decide; try done; lia.
  - intros r. simpl. unfold run, resume. simpl.
    destruct mo; simpl; [|done].
    destruct (remove_task SendAwait p) as [l|] eqn:Hl; simpl;
      case_decide; simpl; try done;
      destruct r; cmd_unfold; simpl; rewrite ?Hl; simpl;
      repeat case_decide; try done; lia.
Qed.

Example forward_settling_commutes_on_pending_world :
  (messages ∘ st)
    <$> run_all sample_env sample_avatar
          [send_settled (Throw NonError);
           manager_emits 0 avatar_response 7 8 hello_response] pending_world
  = Some [{| id := lit "5"; role := user; content := lit "hi";
             timestamp := 6 |};
          {| id := lit "7"; role := assistant; content := lit "hello";
             timestamp := 8 |}].
Proof. by vm_compute. Qed.

(** *** The rendered controls and the handlers behind them *)

(** X12.  The send button's [disabled] expression and the guards of
    [sendMessage] agree: when the button is disabled a call to [sendMessage]
    appends nothing, forwards nothing and suspends nothing; when it is
    enabled the call appends one message, issues one forward call and
    suspends on it. *)
Theorem sendButton_agrees_with_sendMessage now date w :
  (sendButton_disabled w = true →
   messages (st (sendMessage now date w)) = messages (st w)
   ∧ forwards (sendMessage now date w) = forwards w
   ∧ pending (sendMessage now date w) = pending w)
  ∧ (sendButton_disabled w = false →
     length (messages (st (sendMessage now date w)))
     = S (length (messages (st w)))
     ∧ forwards (sendMessage now date w) = S (forwards w)
     ∧ pending (sendMessage now date w) = pending w ++ [SendAwait]).
Proof.
  unfold sendButton_disabled, sendMessage, forwards.
  destruct (negb (truthy (Some (trim (input (st w))))) || isSending (st w));
    simpl; [by split|].
  destruct (sessionManagerRef (st w)) as [current|]; simpl.
  - split; [done|]. intros _. cmd.
    rewrite length_app, filter_emit. simpl. split_and!; [lia | lia | done].
  - split; [|done]. intros _. cmd. rewrite filter_emit. simpl.
    split_and!; [done | lia | done].
Qed.

(** The theorem on a ready session with [hi] typed in (enabled), and on a
    fresh controller with the same text (disabled: no session). *)
Lemma sendButton_agrees_with_sendMessage_witness :
  forwards (sendMessage 5 6 (setInput (lit "hi") ready_world))
  = S (forwards (setInput (lit "hi") ready_world))
  ∧ forwards (sendMessage 5 6 (setInput (lit "hi") initialWorld))
    = forwards (setInput (lit "hi") initialWorld).
Proof.
  split.
  - apply (sendButton_agrees_with_sendMessage 5 6
             (setInput (lit "hi") ready_world)).
    reflexivity.
  - apply (sendButton_agrees_with_sendMessage 5 6
             (setInput (lit "hi") initialWorld)).
    reflexivity.
Defined.

(** X13.  The handler has no guard of its own against a call made while
    another is in flight (only the button's [disabled] attribute stands in
    the way): in a mounted controller that retains no manager, under a
    usable key and a replaced avatar id, any number of [initialize] calls
    made before any of them settles each start an exchange with the backend
    and each suspend at its [fetch]; none of them constructs or retains a
    session manager. *)
Theorem initialize_calls_each_start_an_exchange env avatar n w :
  mounted w = true →
  sessionManagerRef (st w) = None →
  isPlatformSDKConfigured env = true →
  avatar ≠ avatar_placeholder →
  ∃ w',
    run_all env avatar (replicate n call_initializeSession) w = Some w'
    ∧ exchanges w' = exchanges w + n
    ∧ pending w' = pending w ++ replicate n InitAwaitFetch
    ∧ constructions w' = constructions w
    ∧ sessionManagerRef (st w') = None
    ∧ mounted w' = true
    ∧ messages (st w') = messages (st w).
Proof.
  intros Hm Href Hcfg Havatar. revert w Hm Href.
  induction n as [|n IH]; intros w Hm Href.
  - exists w. rewrite app_nil_r. split_and!; try done; lia.
  - simpl. unfold run at 1. rewrite Hm. simpl.
    assert (initializeSession env avatar w
            = (setIsInitializing true
               >>> setError None
               >>> emit (fetch_sessions avatar (lit "demo-user")
                           (lit "twin-sdk-example"))
               >>> suspend InitAwaitFetch) w) as ->.
    { unfold initializeSession, isConfigured, strict_eq.
      by rewrite Href, Hcfg, bool_decide_eq_false_2. }
    match goal with
    | |- context [run_all _ _ _ ?w1] =>
        destruct (IH w1) as (w' & Hrun & Hex & Hpend & Hcon & Href' & Hm'
                             & Hmsg)
    end.
    + by cmd.
    + by cmd.
    + exists w'. split_and!; try done.
      * rewrite Hex. unfold exchanges. cmd. rewrite filter_emit. simpl. lia.
      * rewrite Hpend. cmd. by rewrite <-(assoc_L (++)).
      * rewrite Hcon. unfold constructions. cmd. rewrite filter_emit.
        simpl. lia.
Qed.

(** The theorem on two calls in a row on a fresh controller. *)
Lemma initialize_calls_each_start_an_exchange_witness :
  ∃ w',
    run_all sample_env sample_avatar (replicate 2 call_initializeSession)
      initialWorld = Some w'
    ∧ exchanges w' = exchanges initialWorld + 2
    ∧ pending w' = pending initialWorld ++ replicate 2 InitAwaitFetch
    ∧ constructions w' = constructions initialWorld
    ∧ sessionManagerRef (st w') = None
    ∧ mounted w' = true
    ∧ messages (st w') = messages (st initialWorld).
Proof.
  apply (initialize_calls_each_start_an_exchange sample_env sample_avatar 2
           initialWorld).
  - reflexivity.
  - reflexivity.
  - reflexivity.
  - vm_compute; discriminate.
Defined.

(** *** A controller that cannot start *)

Lemma run_inert env avatar a w w' :
  isPlatformSDKConfigured env = false ∨ avatar = avatar_placeholder →
  inert w → run env avatar a w = Some w' → inert w'.
Proof.
  unfold inert. intros Hcfg (Href & Hpend & Hnext & Hmsg & Hlog) H.
  assert (negb (isConfigured env) = false →
          strict_eq avatar avatar_placeholder = false → False) as Hno.
  { unfold isConfigured, strict_eq. rewrite negb_false_iff.
    rewrite bool_decide_eq_false. intros ? ?. destruct Hcfg; congruence. }
  turn H;
    try match goal with
    | Hr : remove_task _ (pending w) = Some _ |- _ =>
        rewrite Hpend in Hr; discriminate Hr
    end;
    segments; simplify_eq/=; try (by destruct Hno); try lia;
    split_and!; try done;
    repeat (apply Forall_app_2; [|by repeat constructor]); done.
Qed.

(** X14.  With a key that is not configured, or with the avatar id left at
    the placeholder the source ships, the controller never gets anywhere:
    in every world it can reach no session manager is retained, the
    transcript is empty, and nothing but toasts and console output has been
    produced: no request to the backend, no call on a session manager. *)
Theorem unconfigured_controller_is_inert env avatar w :
  isPlatformSDKConfigured env = false ∨ avatar = DEMO_AVATAR_ID →
  reachable env avatar w →
  sessionManagerRef (st w) = None
  ∧ messages (st w) = []
  ∧ Forall (λ e, is_outbound e = false) (effects w)
  ∧ exchanges w = 0 ∧ forwards w = 0.
Proof.
  intros Hcfg [tr Htr].
  assert (inert w) as (Href & _ & _ & Hmsg & Hlog).
  { eapply (run_all_invariant env avatar inert); [|..|exact Htr].
    - intros a w0 w1. by apply run_inert.
    - by split_and!. }
  split_and!; [done..| |]; unfold exchanges, forwards.
  - induction Hlog as [|e l He _ IH]; [done|].
    rewrite filter_cons. destruct e; simpl in *; try done.
  - induction Hlog as [|e l He _ IH]; [done|].
    rewrite filter_cons. destruct e; simpl in *; try done.
Qed.

(** The theorem on the source as shipped, under a usable key: the user asks
    for a session, types, and tries to send. *)
Lemma unconfigured_controller_is_inert_witness :
  messages
    (st (sendMessage 5 6
           (setInput (lit "hi")
              (initializeSession sample_env DEMO_AVATAR_ID initialWorld))))
  = [].
Proof.
  apply (unconfigured_controller_is_inert sample_env DEMO_AVATAR_ID
           (sendMessage 5 6
              (setInput (lit "hi")
                 (initializeSession sample_env DEMO_AVATAR_ID initialWorld)))).
  - right. reflexivity.
  - exists [call_initializeSession; call_setInput (lit "hi");
            call_sendMessage 5 6].
    vm_compute. reflexivity.
Defined.

(** *** The transcript *)

Lemma run_message_ids env avatar a w w' :
  run env avatar a w = Some w' →
  ∃ k, messages (st w') = messages (st w) ++ k
       ∧ id <$> k `sublist_of` toString <$> clock_readings a.
Proof.
  intros H. turn H; segments; simplify_eq/=;
    try (exists []; split; [by rewrite app_nil_r | apply sublist_nil_l]);
    eexists; (split; [reflexivity|]); simpl; done.
Qed.

Lemma run_all_message_ids env avatar tr w w' :
  run_all env avatar tr w = Some w' →
  ∃ k, messages (st w') = messages (st w) ++ k
       ∧ id <$> k `sublist_of` toString <$> (tr ≫= clock_readings).
Proof.
  revert w. induction tr as [|a tr IH]; intros w; simpl.
  - intros [= <-]. exists []. split; [by rewrite app_nil_r | done].
  - destruct (run env avatar a w) as [w1|] eqn:Ha; simpl; [|done].
    intros Hrun. apply run_message_ids in Ha as (k1 & Hk1 & Hs1).
    apply IH in Hrun as (k2 & Hk2 & Hs2).
    exists (k1 ++ k2). split.
    + by rewrite Hk2, Hk1, (assoc_L (++)).
    + rewrite !fmap_app. by apply sublist_app.
Qed.

(** X15.  Over any run the transcript only grows: it gains at most one
    message a turn, and the ids of the messages gained are the decimal
    [Date.now()] readings of the turns that appended them, in order.  So
    when those readings are pairwise distinct, no two of the messages gained
    share an id. *)
Theorem transcript_grows_with_clock_ids env avatar tr w w' :
  run_all env avatar tr w = Some w' →
  ∃ gained,
    messages (st w') = messages (st w) ++ gained
    ∧ length gained ≤ length tr
    ∧ id <$> gained `sublist_of` toString <$> (tr ≫= clock_readings)
    ∧ (NoDup (tr ≫= clock_readings) → NoDup (id <$> gained)).
Proof.
  intros Hrun.
  destruct (run_all_message_ids env avatar tr w w' Hrun) as (k & Hk & Hs).
  exists k. split_and!; [done| |done|].
  - apply sublist_length in Hs. rewrite !length_fmap in Hs.
    etrans; [exact Hs|]. clear. induction tr as [|a tr IH]; [done|].
    rewrite bind_cons, length_app.
    destruct a; cbn [clock_readings length]; lia.
  - intros Hnd. eapply sublist_NoDup; [|exact Hs].
    apply NoDup_fmap_2; [|done]. intros a b. apply toString_inj.
Qed.

(** The theorem on a message sent at clock reading 5 and answered at 7,
    starting from a ready session. *)
Lemma transcript_grows_with_clock_ids_witness :
  ∃ gained,
    messages (st (on_avatar_response 7 8 hello_response pending_world))
    = messages (st ready_world) ++ gained
    ∧ length gained ≤ 3
    ∧ id <$> gained `sublist_of` [lit "5"; lit "7"]
    ∧ (NoDup [5%Z; 7%Z] → NoDup (id <$> gained)).
Proof.
  apply (transcript_grows_with_clock_ids sample_env sample_avatar
           [call_setInput (lit "hi"); call_sendMessage 5 6;
            manager_emits 0 avatar_response 7 8 hello_response]
           ready_world
           (on_avatar_response 7 8 hello_response pending_world)).
  vm_compute. reflexivity.
Defined.

(** *** The retained manager over a run *)

(** X16.  Nothing ever clears the reference to the session manager: over any
    run it is either what it was, or the manager of a [connect] that
    resolved during the run.  In particular a controller that retains a
    manager keeps retaining one until it is discarded. *)
Theorem sessionManagerRef_only_set_by_resolved_connect env avatar tr w w' :
  run_all env avatar tr w = Some w' →
  (sessionManagerRef (st w') = sessionManagerRef (st w)
   ∨ ∃ manager, connect_settled manager (Ok tt) ∈ tr
                ∧ sessionManagerRef (st w') = Some manager)
  ∧ (is_Some (sessionManagerRef (st w)) →
     is_Some (sessionManagerRef (st w'))).
Proof.
  revert w. induction tr as [|a tr IH]; intros w; simpl.
  - intros [= <-]. split; [by left | done].
  - destruct (run env avatar a w) as [w1|] eqn:Ha; simpl; [|done].
    intros Hrun. destruct (IH w1 Hrun) as [Hcases Hkeep].
    apply run_sessionManagerRef in Ha.
    assert (is_Some (sessionManagerRef (st w)) →
            is_Some (sessionManagerRef (st w1))) as Hstep.
    { destruct Ha as [->|(m & _ & _ & ->)]; [done | by eexists]. }
    split; [|by intros ?; apply Hkeep, Hstep].
    destruct Hcases as [->|(m & Hm & ->)].
    + destruct Ha as [->|(m & -> & _ & ->)]; [by left|].
      right. exists m. split; [left | done].
    + right. exists m. split; [by right | done].
Qed.

(** The theorem on a ready session that goes on to send a message. *)
Lemma sessionManagerRef_only_set_by_resolved_connect_witness :
  is_Some (sessionManagerRef (st pending_world)).
Proof.
  apply (sessionManagerRef_only_set_by_resolved_connect sample_env
           sample_avatar [call_setInput (lit "hi"); call_sendMessage 5 6]
           ready_world pending_world).
  - vm_compute. reflexivity.
  - by exists 0.
Defined.

(** *** What the observers leave alone *)

(** X17.  An event observer never reaches the backend or a session manager
    and never suspends: whatever the kind and payload of the event, the
    suspended calls, the retained manager, the sending flag, the input text
    and the error string are as before, the log gains toasts and console
    output only, and the transcript gains at most one message.  Events of a
    kind the component does not listen to ([avatar.audio], [avatar.video])
    change nothing at all. *)
Theorem observers_are_local kind now date event w :
  pending (dispatch kind now date event w) = pending w
  ∧ nextManager (dispatch kind now date event w) = nextManager w
  ∧ mounted (dispatch kind now date event w) = mounted w
  ∧ sessionManagerRef (st (dispatch kind now date event w))
    = sessionManagerRef (st w)
  ∧ isSending (st (dispatch kind now date event w)) = isSending (st w)
  ∧ input (st (dispatch kind now date event w)) = input (st w)
  ∧ error (st (dispatch kind now date event w)) = error (st w)
  ∧ (∃ logged, effects (dispatch kind now date event w) = effects w ++ logged
               ∧ Forall (λ e, is_outbound e = false) logged)
  ∧ (∃ gained, messages (st (dispatch kind now date event w))
               = messages (st w) ++ gained
               ∧ length gained ≤ 1)
  ∧ (kind ∉ listened → dispatch kind now date event w = w).
Proof.
  destruct w as [s p e n mo], s.
  destruct kind; simpl; unfold on_avatar_status, on_avatar_input;
    repeat case_match; cmd;
    split_and!; try done;
    try (by intros Hk; destruct Hk; unfold listened; set_solver);
    try (by exists []; rewrite app_nil_r);
    try (exists []; split; [by rewrite app_nil_r | simpl; lia]);
    try (by eexists [_]);
    try (eexists; split; [rewrite <-?(assoc_L (++)); reflexivity
                         | by repeat constructor]).
Qed.

(** X18.  Missing or empty payload fields are tolerated through
    placeholders.  A voice input event appends a user message whose content
    is the payload's [text], or [Voice input received] when the text is
    absent or empty.  An error event raises an [Avatar error] toast whose
    description is the payload's [message], or [Unknown error occurred] when
    the message is absent or empty; it clears the awaiting-response flag and
    leaves the transcript as it was. *)
Theorem observers_fill_in_placeholders now date event w :
  (field inputType event = Some (lit "voice") →
   ∃ m, messages (st (dispatch avatar_input now date event w))
        = messages (st w) ++ [m]
        ∧ role m = user
        ∧ id m = toString now ∧ timestamp m = date
        ∧ (∀ t, field text event = Some t → t ≠ [] → content m = t)
        ∧ (field text event = None ∨ field text event = Some [] →
           content m = lit "Voice input received"))
  ∧ (∃ description,
       last (effects (dispatch avatar_error now date event w))
       = Some (toast_error (lit "Avatar error") (Some description))
       ∧ (∀ t, field message event = Some t → t ≠ [] → description = t)
       ∧ (field message event = None ∨ field message event = Some [] →
          description = lit "Unknown error occurred"))
  ∧ isWaitingForResponse (st (dispatch avatar_error now date event w)) = false
  ∧ messages (st (dispatch avatar_error now date event w)) = messages (st w).
Proof.
  split_and!; [| |done..].
  - intros Hv. simpl. unfold on_avatar_input.
    apply opt_strict_eq_true in Hv. rewrite Hv. cmd.
    eexists. split_and!; [done..| |].
    + simpl. intros [|c t] Ht; [done|]. by rewrite Ht.
    + simpl. by intros [-> | ->].
  - simpl. cmd. eexists. split_and!; [by rewrite last_snoc| |].
    + intros [|c t] Ht; [done|]. by rewrite Ht.
    + by intros [-> | ->].
Qed.

(** The theorem on a voice input that carries its transcription, delivered
    to a ready session. *)
Lemma observers_fill_in_placeholders_witness :
  ∃ m, messages (st (dispatch avatar_input 7 8 voice_input ready_world))
       = messages (st ready_world) ++ [m]
       ∧ content m = lit "good morning".
Proof.
  destruct (proj1 (observers_fill_in_placeholders 7 8 voice_input
                     ready_world) eq_refl)
    as (m & Hm & _ & _ & _ & Hc & _).
  exists m. split; [exact Hm|].
  apply Hc; [reflexivity | vm_compute; discriminate].
Defined.

(** *** A successful [initialize], end to end *)

Lemma remove_task_snoc t p :
  ∃ l, remove_task t (p ++ [t]) = Some l ∧ l ≡ₚ p.
Proof.
  induction p as [|t' p (l & Hl & Hp)]; simpl.
  - exists []. by rewrite decide_True.
  - case_decide; [subst; exists (p ++ [t']); split; [done|]|].
    + by rewrite Permutation_app_comm.
    + exists (t' :: l). rewrite Hl. split; [done | by rewrite Hp].
Qed.

(** X19.  From any world of a mounted controller that retains no manager,
    under a usable key and a replaced avatar id, the four turns of a
    successful [initialize] (the call, the backend's [ok] answer, its body,
    the resolved [connect]) can always be taken, and they end with the
    freshly constructed manager retained, the initializing flag and the error
    string clear, one more exchange with the backend and one more manager
    constructed, from the body as received.  The transcript and the other
    suspended calls are as before. *)
Theorem initialize_succeeds_end_to_end env avatar body w :
  mounted w = true →
  sessionManagerRef (st w) = None →
  isPlatformSDKConfigured env = true →
  avatar ≠ avatar_placeholder →
  ∃ w',
    run_all env avatar
      [call_initializeSession; fetch_settled (Ok true);
       json_settled true (Ok body);
       connect_settled (nextManager w) (Ok tt)] w = Some w'
    ∧ sessionManagerRef (st w') = Some (nextManager w)
    ∧ isInitializing (st w') = false
    ∧ error (st w') = None
    ∧ exchanges w' = S (exchanges w)
    ∧ constructions w' = S (constructions w)
    ∧ new_AvatarSessionManager (nextManager w) body ∈ effects w'
    ∧ messages (st w') = messages (st w)
    ∧ pending w' ≡ₚ pending w.
Proof.
  intros Hm Href Hcfg Havatar.
  destruct w as [s p e n mo], s. simpl in *. subst.
  unfold run, initializeSession, isConfigured, strict_eq. simpl.
  rewrite Hcfg, bool_decide_eq_false_2 by done. simpl.
  unfold resume. cmd.
  destruct (remove_task_snoc InitAwaitFetch p) as (l1 & -> & Hl1). simpl.
  destruct (remove_task_snoc (InitAwaitJson true) l1) as (l2 & -> & Hl2).
  simpl.
  destruct (remove_task_snoc (InitAwaitConnect n) l2) as (l3 & -> & Hl3).
  simpl. eexists. split; [reflexivity|]. simpl.
  unfold exchanges, constructions. simpl.
  split_and!; try done.
  - rewrite !filter_emit. simpl. lia.
  - rewrite !filter_emit. simpl. lia.
  - set_solver.
  - by rewrite Hl3, Hl2.
Qed.

(** The theorem on a fresh controller. *)
Lemma initialize_succeeds_end_to_end_witness :
  ∃ w',
    run_all sample_env sample_avatar
      [call_initializeSession; fetch_settled (Ok true);
       json_settled true (Ok sample_body);
       connect_settled (nextManager initialWorld) (Ok tt)] initialWorld
    = Some w'
    ∧ sessionManagerRef (st w') = Some (nextManager initialWorld)
    ∧ isInitializing (st w') = false
    ∧ error (st w') = None
    ∧ exchanges w' = S (exchanges initialWorld)
    ∧ constructions w' = S (constructions initialWorld)
    ∧ new_AvatarSessionManager (nextManager initialWorld) sample_body
      ∈ effects w'
    ∧ messages (st w') = messages (st initialWorld)
    ∧ pending w' ≡ₚ pending initialWorld.
Proof.
  apply (initialize_succeeds_end_to_end sample_env sample_avatar sample_body
           initialWorld).
  - reflexivity.
  - reflexivity.
  - reflexivity.
  - vm_compute; discriminate.
Defined.

(** *** A message and its answer, end to end *)

(** X20.  In a mounted controller that retains a manager and has no send in
    flight, sending a text that is not blank, the resolution of the forward
    call and the arrival of a response event can always be taken in that
    order, and together they add to the transcript the user's trimmed text
    followed by the assistant's answer, forward the trimmed text once to the
    retained manager, clear the input field, and leave the sending and
    awaiting-response flags clear. *)
Theorem message_round_trip env avatar current manager now date now' date'
    event w :
  mounted w = true →
  sessionManagerRef (st w) = Some current →
  isSending (st w) = false →
  trim (input (st w)) ≠ [] →
  manager < nextManager w →
  ∃ w',
    run_all env avatar
      [call_sendMessage now date; send_settled (Ok tt);
       manager_emits manager avatar_response now' date' event] w = Some w'
    ∧ messages (st w')
      = messages (st w)
        ++ [{| id := toString now; role := user;
               content := trim (input (st w)); timestamp := date |};
            {| id := toString now'; role := assistant;
               content := or_default (field text event)
                            (lit "Response received");
               timestamp := date' |}]
    ∧ effects w'
      = effects w ++ [manager_sendMessage current (trim (input (st w)))]
    ∧ input (st w') = []
    ∧ isSending (st w') = false
    ∧ isWaitingForResponse (st w') = false
    ∧ pending w' ≡ₚ pending w.
Proof.
  intros Hm Href Hs Htext Hmanager.
  destruct w as [s p e n mo], s. simpl in *. subst.
  unfold run, sendMessage. simpl.
  apply truthy_Some_nonempty in Htext. simpl in Htext. rewrite Htext. simpl.
  unfold resume. cmd.
  destruct (remove_task_snoc SendAwait p) as (l1 & -> & Hl1). simpl.
  rewrite decide_True by done.
  eexists. split; [reflexivity|]. simpl.
  split_and!; try done. by rewrite <-(assoc_L (++)).
Qed.

(** The theorem on the specification's scenario: [hi] answered by
    [hello]. *)
Lemma message_round_trip_witness :
  ∃ w',
    run_all sample_env sample_avatar
      [call_sendMessage 5 6; send_settled (Ok tt);
       manager_emits 0 avatar_response 7 8 hello_response]
      (setInput (lit "hi") ready_world) = Some w'
    ∧ messages (st w')
      = [{| id := lit "5"; role := user; content := lit "hi";
            timestamp := 6 |};
         {| id := lit "7"; role := assistant; content := lit "hello";
            timestamp := 8 |}]
    ∧ isSending (st w') = false
    ∧ isWaitingForResponse (st w') = false.
Proof.
  destruct (message_round_trip sample_env sample_avatar 0 0 5 6 7 8
              hello_response (setInput (lit "hi") ready_world))
    as (w' & Hrun & Hmsg & _ & _ & Hs & Hw & _).
  - reflexivity.
  - reflexivity.
  - reflexivity.
  - vm_compute; discriminate.
  - vm_compute; lia.
  - exists w'. split_and!; [exact Hrun | exact Hmsg | exact Hs | exact Hw].
Defined.
